(** * Crypto tracker: analytics engine, catalog search and batch recording

    A shallow embedding of [src/services/tracker.py] (class [CryptoTracker]),
    with the parts of [src/models/coin.py] and [src/api/crypto_client.py] it
    relies on.

    Modelling conventions.
    - A Python [float] is a real number ([R]): arithmetic is exact, rounding,
      infinities and NaN are outside the model.  A Python [int] is a [Z]
      (or a [nat] where it is a length or an index).
    - A Python [str] is a [string]; [str.lower] acts on the ASCII letters.
    - A raised exception is the [Raise] constructor of [result]; the
      stateful service methods run in the monad [M] over a [World] holding
      the two Mongo collections, the number of clock reads and the list of
      history queries sent to the store.
    - The collaborators are interfaces: [BaseCryptoClient] (the abstract
      base class of the source) and [DocumentStore] (what the MongoEngine
      query sets and the system clock answer).
    - [logging] calls are not modelled. *)

From Stdlib Require Import Reals Lra Lia ZArith List String Ascii DecimalString.
From stdpp Require Import base gmap strings list.

Open Scope R_scope.

(** ** Python exceptions and results *)

Inductive exn : Type :=
| ValueError (msg : string)
| IndexError (msg : string)
| StatisticsError (msg : string)
| RuntimeError (msg : string).

Inductive result (A : Type) : Type :=
| Ok (a : A)
| Raise (e : exn).

Arguments Ok {A} a.
Arguments Raise {A} e.

#[global] Instance result_ret : MRet result := fun A a => Ok a.
#[global] Instance result_bind : MBind result := fun A B f m =>
  match m with
  | Ok a => f a
  | Raise e => Raise e
  end.

Definition is_ok {A} (r : result A) : bool :=
  match r with Ok _ => true | Raise _ => false end.

(** [f"{n}"] for a non-negative [int]. *)
Definition str_of_nat (n : nat) : string := NilZero.string_of_uint (Nat.to_uint n).

(** ** Strings: [str.lower] and the substring test [sub in s] *)

Definition lower_ascii (c : ascii) : ascii :=
  let n := nat_of_ascii c in
  if ((65 <=? n) && (n <=? 90))%nat then ascii_of_nat (n + 32) else c.

Fixpoint lower (s : string) : string :=
  match s with
  | EmptyString => EmptyString
  | String c s' => String (lower_ascii c) (lower s')
  end.

Fixpoint str_in (sub s : string) : bool :=
  if String.prefix sub s then true
  else match s with
       | EmptyString => false
       | String _ s' => str_in sub s'
       end.

(** Truthiness of a [str]: the empty string is false. *)
Definition str_truthy (s : string) : bool :=
  match s with EmptyString => false | String _ _ => true end.

(** ** The [statistics] module and the built-ins used on floats *)

Definition sum_R (l : list R) : R := fold_left Rplus l 0.
Definition sum_Z (l : list Z) : Z := fold_left Z.add l 0%Z.

(** [range(n)] *)
Definition range (n : nat) : list nat := seq 0 n.

(** [max(prices)] and [min(prices)] on a non-empty list; [ValueError] on an
    empty one. *)
Definition py_max (l : list R) : result R :=
  match l with
  | [] => Raise (ValueError "max() arg is an empty sequence")
  | x :: l' => Ok (fold_left Rmax l' x)
  end.

Definition py_min (l : list R) : result R :=
  match l with
  | [] => Raise (ValueError "min() arg is an empty sequence")
  | x :: l' => Ok (fold_left Rmin l' x)
  end.

(** [statistics.mean]: the arithmetic mean, [StatisticsError] on no data. *)
Definition mean (data : list R) : result R :=
  match data with
  | [] => Raise (StatisticsError "mean requires at least one data point")
  | _ => Ok (sum_R data / INR (length data))
  end.

(** [statistics.stdev]: the square root of the sample variance (divisor
    [n - 1]), [StatisticsError] on fewer than two data points. *)
Definition stdev (data : list R) : result R :=
  if (length data <? 2)%nat
  then Raise (StatisticsError "stdev requires at least two data points")
  else
    let xbar := sum_R data / INR (length data) in
    Ok (sqrt (sum_R (map (fun x => (x - xbar) * (x - xbar)) data)
              / (INR (length data) - 1))).

(** ** [models/coin.py] *)

Record TrackedCoin : Type := {
  tc_coin_id : string;
  tc_symbol : string;
  tc_name : string;
  tc_is_active : bool
}.

Record CoinPrice : Type := {
  coin_id : string;
  price : R;
  timestamp : Z
}.

(** ** [services/tracker.py]: report records *)

Record MarketAnalytics : Type := {
  ma_coin_id : string;
  ma_record_count : nat;
  open_price : R;
  close_price : R;
  high_price : R;
  low_price : R;
  average_price : R;
  ma_net_change_percent : R
}.

Record TrendAnalysis : Type := {
  ta_coin_id : string;
  ta_record_count : nat;
  trend : string;
  volatility : string;
  momentum_score : R;
  ta_net_change_percent : R
}.

(** ** The statistics calculators of [CryptoTracker] *)

Definition _calculate_volatility (prices : list R) : result string :=
  if (length prices <? 2)%nat then Ok "Unknown"
  else
    mean_price ← mean prices;
    std_dev ← stdev prices;
    let coeff_var := if Req_dec_T mean_price 0 then 0 else std_dev / mean_price in
    if Rlt_dec coeff_var 0.01 then Ok "Low"
    else if Rlt_dec coeff_var 0.05 then Ok "Medium"
    else Ok "High".

Definition _calculate_trend (prices : list R) : result (string * R) :=
  let n := length prices in
  let sum_x := sum_Z (map Z.of_nat (range n)) in
  let sum_y := sum_R prices in
  let sum_xy := sum_R (map (fun i => INR i * nth i prices 0) (range n)) in
  let sum_x2 := sum_Z (map (fun i => Z.of_nat i ^ 2)%Z (range n)) in
  let denominator := (Z.of_nat n * sum_x2 - sum_x ^ 2)%Z in
  let slope :=
    if (denominator =? 0)%Z then 0
    else (INR n * sum_xy - IZR sum_x * sum_y) / IZR denominator in
  mean_price ← mean prices;
  let norm_slope := if Req_dec_T mean_price 0 then 0 else slope / mean_price * 100 in
  let trend :=
    if Rgt_dec norm_slope 0.5 then "Strong Uptrend"
    else if Rgt_dec norm_slope 0.1 then "Uptrend"
    else if Rlt_dec norm_slope (-0.5) then "Strong Downtrend"
    else if Rlt_dec norm_slope (-0.1) then "Downtrend"
    else "Sideways" in
  Ok (trend, norm_slope).

Definition _calculate_momentum (net_change_percent norm_slope : R) : R :=
  let momentum := Rabs net_change_percent * 0.5 + Rabs norm_slope * 20 in
  Rmin (Rmax momentum 0) 10.

(** [prices[i]] for a Python [int] index, negative indices counting from
    the end. *)
Definition getitem (l : list R) (i : Z) : result R :=
  let n := Z.of_nat (length l) in
  let j := if (i <? 0)%Z then (i + n)%Z else i in
  if ((0 <=? j) && (j <? n))%Z then Ok (nth (Z.to_nat j) l 0)
  else Raise (IndexError "list index out of range").

(** ** Collaborators *)

(** A catalog entry or a priority-table entry: a [dict] from [str] to [str]. *)
Abbreviation dict := (gmap string string).

(** [api/crypto_client.py]: the abstract base class [BaseCryptoClient]. *)
Class BaseCryptoClient : Type := {
  get_price : string -> result R;
  get_supported_coins_with_details : result (list dict)
}.

(** What MongoEngine and the clock answer:
    - [objects_recent docs coin_id limit] is
      [CoinPriceDocument.objects(coin_id=coin_id).order_by("-timestamp").limit(limit)]
      over the collection [docs];
    - [objects_by_name docs] is [TrackedCoinDocument.objects.order_by("name")];
    - [utc_now k] is the value of the [k]-th call to [datetime.now]. *)
Class DocumentStore : Type := {
  objects_recent : list CoinPrice -> string -> Z -> list CoinPrice;
  objects_by_name : list TrackedCoin -> list TrackedCoin;
  utc_now : nat -> Z
}.

(** ** The service monad *)

Record World : Type := {
  coin_prices : list CoinPrice;
  tracked_coins : list TrackedCoin;
  clock_reads : nat;
  history_queries : list (string * Z)
}.

Definition M (A : Type) : Type := World -> result A * World.

#[global] Instance M_ret : MRet M := fun A a w => (Ok a, w).
#[global] Instance M_bind : MBind M := fun A B f m w =>
  match m w with
  | (Ok a, w') => f a w'
  | (Raise e, w') => (Raise e, w')
  end.

Definition raise {A} (e : exn) : M A := fun w => (Raise e, w).
Definition lift {A} (r : result A) : M A := fun w => (r, w).

(** [try: body  except Exception: handler] *)
Definition try_except {A} (body : M A) (handler : exn -> M A) : M A := fun w =>
  match body w with
  | (Ok a, w') => (Ok a, w')
  | (Raise e, w') => handler e w'
  end.

(** ** [CryptoTracker] *)

(** The dict literal [{"id": id, "symbol": symbol, "name": name}]. *)
Definition coin_entry (id symbol name : string) : dict :=
  <["id" := id]> (<["symbol" := symbol]> (<["name" := name]> ∅)).

Definition MAJOR_COINS : gmap string dict :=
  list_to_map
    [ ("bitcoin", coin_entry "bitcoin" "btc" "Bitcoin");
      ("btc", coin_entry "bitcoin" "btc" "Bitcoin");
      ("ethereum", coin_entry "ethereum" "eth" "Ethereum");
      ("eth", coin_entry "ethereum" "eth" "Ethereum");
      ("solana", coin_entry "solana" "sol" "Solana");
      ("sol", coin_entry "solana" "sol" "Solana");
      ("ripple", coin_entry "ripple" "xrp" "Ripple");
      ("xrp", coin_entry "ripple" "xrp" "Ripple");
      ("cardano", coin_entry "cardano" "ada" "Cardano");
      ("ada", coin_entry "cardano" "ada" "Cardano");
      ("dogecoin", coin_entry "dogecoin" "doge" "Dogecoin");
      ("doge", coin_entry "dogecoin" "doge" "Dogecoin");
      ("binancecoin", coin_entry "binancecoin" "bnb" "Binance Coin");
      ("bnb", coin_entry "binancecoin" "bnb" "Binance Coin") ].

(** The keyword list of the name filter of [search_coins]. *)
Definition name_keywords : list string := ["-peg"; "wrapped"; "token"; "staked"].

(** The [for coin in all_coins] loop of [search_coins], [results] being the
    list built so far; [break] returns it. *)
Fixpoint search_loop (query : string) (limit : Z) (all_coins results : list dict)
  : list dict :=
  match all_coins with
  | [] => results
  | coin :: rest =>
      let symbol := lower (default "" (coin !! "symbol")) in
      let coin_id := lower (default "" (coin !! "id")) in
      let name := lower (default "" (coin !! "name")) in
      if negb (forallb str_truthy [symbol; coin_id; name]) then
        search_loop query limit rest results
      else if str_in "." symbol || (10 <? String.length symbol)%nat then
        search_loop query limit rest results
      else if existsb (fun kw => str_in kw name) name_keywords then
        search_loop query limit rest results
      else if existsb (String.eqb query) [symbol; coin_id; name] then
        let results := results ++ [coin] in
        if (limit <=? Z.of_nat (length results))%Z then results
        else search_loop query limit rest results
      else search_loop query limit rest results
  end.

Section CryptoTracker.
Context {client : BaseCryptoClient} {store : DocumentStore}.

Definition list_tracked_coins : M (list TrackedCoin) := fun w =>
  (Ok (objects_by_name (tracked_coins w)), w).

(** [datetime.now(timezone.utc)] *)
Definition now : M Z := fun w =>
  (Ok (utc_now (clock_reads w)),
   {| coin_prices := coin_prices w;
      tracked_coins := tracked_coins w;
      clock_reads := S (clock_reads w);
      history_queries := history_queries w |}).

(** [CoinPriceDocument(...).save().to_dataclass()] *)
Definition save_price (doc : CoinPrice) : M CoinPrice := fun w =>
  (Ok doc,
   {| coin_prices := coin_prices w ++ [doc];
      tracked_coins := tracked_coins w;
      clock_reads := clock_reads w;
      history_queries := history_queries w |}).

Definition record_price_for_coin (coin_id : string) : M CoinPrice :=
  price ← lift (get_price coin_id);
  timestamp ← now;
  save_price {| coin_id := coin_id; price := price; timestamp := timestamp |}.

(** The [for tracked in tracked_coins] loop, [prices] being the list built
    so far. *)
Fixpoint record_loop (tracked_coins : list TrackedCoin) (prices : list CoinPrice)
  : M (list CoinPrice) :=
  match tracked_coins with
  | [] => mret prices
  | tracked :: rest =>
      prices' ← try_except
        (price ← record_price_for_coin (tc_coin_id tracked);
         mret (prices ++ [price]))
        (fun _ => mret prices);
      record_loop rest prices'
  end.

Definition record_prices_for_all_tracked : M (list CoinPrice) :=
  let prices := [] in
  tracked_coins ← list_tracked_coins;
  match tracked_coins with
  | [] => mret prices
  | _ => record_loop tracked_coins prices
  end.

Definition get_price_history (coin_id : string) (limit : Z) : M (list CoinPrice) := fun w =>
  (Ok (objects_recent (coin_prices w) coin_id limit),
   {| coin_prices := coin_prices w;
      tracked_coins := tracked_coins w;
      clock_reads := clock_reads w;
      history_queries := history_queries w ++ [(coin_id, limit)] |}).

Definition get_market_analytics (coin_id : string) (limit : Z) : M MarketAnalytics :=
  history ← get_price_history coin_id limit;
  let actual_count := length history in
  if (actual_count <? 2)%nat then
    raise (ValueError ("Not enough data for market analysis. "
                       +:+ "Need at least 2 records, but found "
                       +:+ str_of_nat actual_count +:+ "."))
  else
    let prices := map price history in
    open_p ← lift (getitem prices (-1));
    close_p ← lift (getitem prices 0);
    let net_change :=
      if Req_dec_T open_p 0 then 0 else (close_p - open_p) / open_p * 100 in
    high ← lift (py_max prices);
    low ← lift (py_min prices);
    average ← lift (mean prices);
    mret {| ma_coin_id := coin_id;
            ma_record_count := actual_count;
            open_price := open_p;
            close_price := close_p;
            high_price := high;
            low_price := low;
            average_price := average;
            ma_net_change_percent := net_change |}.

Definition get_trend_analysis (coin_id : string) (limit : Z) : M TrendAnalysis :=
  history ← get_price_history coin_id limit;
  if (length history <? 4)%nat then
    raise (ValueError ("Not enough data for trend analysis. "
                       +:+ "Need at least 4 records, but found "
                       +:+ str_of_nat (length history) +:+ "."))
  else
    let prices := map price history in
    volatility ← lift (_calculate_volatility prices);
    '(trend, norm_slope) ← lift (_calculate_trend prices);
    open_p ← lift (getitem prices (-1));
    close_p ← lift (getitem prices 0);
    let net_change_percent :=
      if Req_dec_T open_p 0 then 0 else (close_p - open_p) / open_p * 100 in
    let momentum_score := _calculate_momentum net_change_percent norm_slope in
    mret {| ta_coin_id := coin_id;
            ta_record_count := length prices;
            trend := trend;
            volatility := volatility;
            momentum_score := momentum_score;
            ta_net_change_percent := net_change_percent |}.

Definition search_coins (query : string) (limit : Z) : result (list dict) :=
  let query := lower query in
  match MAJOR_COINS !! query with
  | Some entry => Ok [entry]
  | None =>
      all_coins ← get_supported_coins_with_details;
      let results := [] in
      Ok (search_loop query limit all_coins results)
  end.

End CryptoTracker.

(** * Definitions used by the statements *)

(** The clamp of the specification: [x] limited to the interval [[lo, hi]]. *)
Definition clamp (lo hi x : R) : R :=
  if Rlt_dec x lo then lo else if Rgt_dec x hi then hi else x.

(** The least-squares slope computed by [_calculate_trend], its normalized
    form and the label chain, named for the statements below. *)
Definition ols_slope (prices : list R) : R :=
  let n := length prices in
  let sum_x := sum_Z (map Z.of_nat (range n)) in
  let sum_y := sum_R prices in
  let sum_xy := sum_R (map (fun i => INR i * nth i prices 0) (range n)) in
  let sum_x2 := sum_Z (map (fun i => Z.of_nat i ^ 2)%Z (range n)) in
  let denominator := (Z.of_nat n * sum_x2 - sum_x ^ 2)%Z in
  if (denominator =? 0)%Z then 0
  else (INR n * sum_xy - IZR sum_x * sum_y) / IZR denominator.

Definition norm_slope_of (prices : list R) : R :=
  let mean_price := sum_R prices / INR (length prices) in
  if Req_dec_T mean_price 0 then 0 else ols_slope prices / mean_price * 100.

Definition trend_label (norm_slope : R) : string :=
  if Rgt_dec norm_slope 0.5 then "Strong Uptrend"
  else if Rgt_dec norm_slope 0.1 then "Uptrend"
  else if Rlt_dec norm_slope (-0.5) then "Strong Downtrend"
  else if Rlt_dec norm_slope (-0.1) then "Downtrend"
  else "Sideways".

(** The sample standard deviation, the coefficient of variation and the
    classification computed by [_calculate_volatility]. *)
Definition sample_stdev (prices : list R) : R :=
  let xbar := sum_R prices / INR (length prices) in
  sqrt (sum_R (map (fun x => (x - xbar) * (x - xbar)) prices) / (INR (length prices) - 1)).

Definition coeff_var_of (prices : list R) : R :=
  let mean_price := sum_R prices / INR (length prices) in
  if Req_dec_T mean_price 0 then 0 else sample_stdev prices / mean_price.

Definition volatility_label (coeff_var : R) : string :=
  if Rlt_dec coeff_var 0.01 then "Low"
  else if Rlt_dec coeff_var 0.05 then "Medium"
  else "High".

(** The net change in percent computed by both analytics operations from
    the open and the close price. *)
Definition net_change_of (open_p close_p : R) : R :=
  if Req_dec_T open_p 0 then 0 else (close_p - open_p) / open_p * 100.

(** The insufficient-data error: the [ValueError] whose message starts with
    ["Not enough data"]. *)
Definition is_insufficient_data {A} (r : result A) : Prop :=
  match r with
  | Raise (ValueError msg) => String.prefix "Not enough data" msg = true
  | _ => False
  end.

(** The world after one history query. *)
Definition queried (w : World) (coin_id : string) (limit : Z) : World :=
  {| coin_prices := coin_prices w;
     tracked_coins := tracked_coins w;
     clock_reads := clock_reads w;
     history_queries := history_queries w ++ [(coin_id, limit)] |}.

(** A window is newest-first when timestamps never increase along it. *)
Definition newest_first (history : list CoinPrice) : Prop :=
  forall i j a b, (i <= j)%nat ->
    nth_error history i = Some a -> nth_error history j = Some b ->
    (timestamp b <= timestamp a)%Z.

(** [sub] occurs in [s]. *)
Definition contains (sub s : string) : Prop :=
  exists pre post, s = pre +:+ sub +:+ post.

(** ** A reference store and client for the examples *)

(** The history query of a MongoDB collection: the documents of the coin,
    newest first, cut to [limit] documents; a limit of 0 means no limit and
    a negative limit counts as its absolute value, as for a MongoDB cursor. *)
Fixpoint insert_newest_first (d : CoinPrice) (l : list CoinPrice) : list CoinPrice :=
  match l with
  | [] => [d]
  | x :: l' =>
      if (timestamp x <? timestamp d)%Z then d :: x :: l'
      else x :: insert_newest_first d l'
  end.

Definition sort_newest_first (l : list CoinPrice) : list CoinPrice :=
  fold_right insert_newest_first [] l.

Definition mongo_recent (docs : list CoinPrice) (c : string) (limit : Z) : list CoinPrice :=
  let found := sort_newest_first (List.filter (fun d => String.eqb (coin_id d) c) docs) in
  if (limit =? 0)%Z then found else firstn (Z.abs_nat limit) found.

Definition mongo_store : DocumentStore := {|
  objects_recent := mongo_recent;
  objects_by_name := fun docs => docs;
  utc_now := fun k => Z.of_nat k
|}.

(** A collection holding the given prices of ["bitcoin"], recorded one per
    clock tick in the order given (oldest first). *)
Fixpoint recorded_from (t : Z) (chronological : list R) : list CoinPrice :=
  match chronological with
  | [] => []
  | p :: ps =>
      {| coin_id := "bitcoin"; price := p; timestamp := t |} :: recorded_from (t + 1) ps
  end.

Definition world_of (chronological : list R) : World :=
  {| coin_prices := recorded_from 0 chronological;
     tracked_coins := [];
     clock_reads := length chronological;
     history_queries := [] |}.

(** The catalog of the test suite, with a wrapped token added, and a client
    whose price call fails for ["ethereum"]. *)
Definition MOCK_COINS_LIST : list dict :=
  [ coin_entry "bitcoin" "btc" "Bitcoin";
    coin_entry "ethereum" "eth" "Ethereum";
    coin_entry "ripple" "xrp" "XRP";
    coin_entry "spam-coin-peg" "spam.x" "SpamCoin";
    coin_entry "wbtc" "wbtc" "Wrapped Bitcoin";
    coin_entry "litecoin" "ltc" "Litecoin" ].

Definition mock_client : BaseCryptoClient := {|
  get_price := fun c =>
    if String.eqb c "ethereum" then Raise (RuntimeError "API failed for ethereum")
    else Ok 65000;
  get_supported_coins_with_details := Ok MOCK_COINS_LIST
|}.

Definition tracked (id symbol name : string) : TrackedCoin :=
  {| tc_coin_id := id; tc_symbol := symbol; tc_name := name; tc_is_active := true |}.

Definition world_tracking (coins : list TrackedCoin) : World :=
  {| coin_prices := []; tracked_coins := coins; clock_reads := 0; history_queries := [] |}.

(** The price fetch for a tracked coin succeeds. *)
Definition fetch_ok {client : BaseCryptoClient} (t : TrackedCoin) : bool :=
  is_ok (get_price (tc_coin_id t)).

(** The quality filters of [search_coins] let the entry through, and the
    query matches it. *)
Definition quality_ok (coin : dict) : bool :=
  let symbol := lower (default "" (coin !! "symbol")) in
  let coin_id := lower (default "" (coin !! "id")) in
  let name := lower (default "" (coin !! "name")) in
  forallb str_truthy [symbol; coin_id; name]
  && negb (str_in "." symbol || (10 <? String.length symbol)%nat)
  && negb (existsb (fun kw => str_in kw name) name_keywords).

Definition query_matches (query : string) (coin : dict) : bool :=
  existsb (String.eqb query)
    [lower (default "" (coin !! "symbol"));
     lower (default "" (coin !! "id"));
     lower (default "" (coin !! "name"))].

(** The index-weighted sum [sum(i * prices[i] for i in range(n))] of
    [_calculate_trend]. *)
Definition index_weighted_sum (prices : list R) : R :=
  sum_R (map (fun i => INR i * nth i prices 0) (range (length prices))).

(** * More of the source *)

From stdpp Require Import sorting.

Open Scope R_scope.

(** ** [api/crypto_client.py]: [CoinGeckoClient.get_supported_coins] *)

(** Truthiness of [coin.get(key)]: a missing key gives [None], which is
    false, and so is the empty string. *)
Definition get_truthy (coin : dict) (key : string) : bool :=
  match coin !! key with
  | Some v => str_truthy v
  | None => false
  end.

(** The [for coin in coins] loop, [symbol_to_id] being the mapping built so
    far. *)
Fixpoint supported_loop (coins : list dict) (symbol_to_id : gmap string string)
  : gmap string string :=
  match coins with
  | [] => symbol_to_id
  | coin :: rest =>
      if negb (get_truthy coin "id") || negb (get_truthy coin "symbol") then
        supported_loop rest symbol_to_id
      else
        supported_loop rest
          (<[lower (default "" (coin !! "symbol")) := default "" (coin !! "id")]> symbol_to_id)
  end.

Definition get_supported_coins {client : BaseCryptoClient} : result (gmap string string) :=
  coins ← get_supported_coins_with_details;
  Ok (supported_loop coins ∅).

(** The key and value an entry contributes to the mapping, if any. *)
Definition symbol_entry (coin : dict) : option (string * string) :=
  if get_truthy coin "id" && get_truthy coin "symbol"
  then Some (lower (default "" (coin !! "symbol")), default "" (coin !! "id"))
  else None.

(** ** [services/tracker.py]: the tracked coins *)

(** What [doc.save()] answers for a new [TrackedCoinDocument]: [Some msg]
    stands for a [ValidationError] with message [msg]. *)
Class TrackedCoinValidation : Type := {
  validation_error : TrackedCoin -> option string
}.

(** [TrackedCoinDocument.objects(coin_id=coin_id)] and
    [CoinPriceDocument.objects(coin_id=coin_id)]: the documents of the
    collection with that coin id, and the others. *)
Definition has_id (c : string) (d : TrackedCoin) : bool := String.eqb (tc_coin_id d) c.
Definition price_of (c : string) (d : CoinPrice) : bool := String.eqb (coin_id d) c.

Section TrackedCoins.
Context {validation : TrackedCoinValidation}.

Definition add_tracked_coin (coin_id symbol name : string) : M TrackedCoin := fun w =>
  match List.filter (has_id coin_id) (tracked_coins w) with
  | _ :: _ =>
      (Raise (ValueError ("Coin with id='" +:+ coin_id +:+ "' is already tracked.")), w)
  | [] =>
      let doc := {| tc_coin_id := coin_id; tc_symbol := lower symbol;
                    tc_name := name; tc_is_active := true |} in
      match validation_error doc with
      | Some exc => (Raise (ValueError ("Invalid data for new coin: " +:+ exc)), w)
      | None =>
          (Ok doc,
           {| coin_prices := coin_prices w;
              tracked_coins := tracked_coins w ++ [doc];
              clock_reads := clock_reads w;
              history_queries := history_queries w |})
      end
  end.

Definition delete_tracked_coin (coin_id : string) (delete_prices : bool) : M unit := fun w =>
  let deleted_count := length (List.filter (has_id coin_id) (tracked_coins w)) in
  let w1 := {| coin_prices := coin_prices w;
               tracked_coins := List.filter (fun d => negb (has_id coin_id d)) (tracked_coins w);
               clock_reads := clock_reads w;
               history_queries := history_queries w |} in
  if (deleted_count =? 0)%nat then
    (Raise (ValueError ("Tracked coin with id='" +:+ coin_id +:+ "' not found.")), w1)
  else if delete_prices then
    (Ok tt,
     {| coin_prices := List.filter (fun d => negb (price_of coin_id d)) (coin_prices w1);
        tracked_coins := tracked_coins w1;
        clock_reads := clock_reads w1;
        history_queries := history_queries w1 |})
  else (Ok tt, w1).

End TrackedCoins.

(** A validation that accepts every document, for the examples. *)
Definition accept_all : TrackedCoinValidation := {| validation_error := fun _ => None |}.

(** A coin id is tracked in a world. *)
Definition is_tracked (c : string) (w : World) : Prop :=
  exists d, In d (tracked_coins w) /\ tc_coin_id d = c.

(** ** The command line: [main.py] and [add_tracked_coin_interactive] *)

(** The built-ins of [str] and [int] called on a line of input; [py_int s]
    is [None] when [int(s)] raises its [ValueError]. *)
Class StrBuiltins : Type := {
  strip : string -> string;
  isdigit : string -> bool;
  py_int : string -> option Z
}.

Definition int_error (s : string) : exn :=
  ValueError ("invalid literal for int() with base 10: '" +:+ s +:+ "'").

(** What a run at the command line ends with: a returned value, an
    exception of the service layer, or one of the exceptions only the
    command line can meet: [EOFError] when [input] finds no more lines,
    [KeyError] on a missing dict key. *)
Inductive cli_result (A : Type) : Type :=
| Returned (a : A)
| Raised (e : exn)
| RaisedEOFError
| RaisedKeyError (key : string).

Arguments Returned {A} a.
Arguments Raised {A} e.
Arguments RaisedEOFError {A}.
Arguments RaisedKeyError {A} key.

#[global] Instance cli_result_ret : MRet cli_result := fun A a => Returned a.
#[global] Instance cli_result_bind : MBind cli_result := fun A B f m =>
  match m with
  | Returned a => f a
  | Raised e => Raised e
  | RaisedEOFError => RaisedEOFError
  | RaisedKeyError k => RaisedKeyError k
  end.

(** The monad of the command line: the lines [input] is still to return,
    and the world of the service. *)
Definition Cli (A : Type) : Type :=
  list string -> World -> cli_result A * list string * World.

#[global] Instance Cli_ret : MRet Cli := fun A a lines w => (Returned a, lines, w).
#[global] Instance Cli_bind : MBind Cli := fun A B f m lines w =>
  match m lines w with
  | (Returned a, lines', w') => f a lines' w'
  | (Raised e, lines', w') => (Raised e, lines', w')
  | (RaisedEOFError, lines', w') => (RaisedEOFError, lines', w')
  | (RaisedKeyError k, lines', w') => (RaisedKeyError k, lines', w')
  end.

Definition cli_raise {A} (e : exn) : Cli A := fun lines w => (Raised e, lines, w).

(** [input(prompt)] *)
Definition input : Cli string := fun lines w =>
  match lines with
  | [] => (RaisedEOFError, [], w)
  | line :: rest => (Returned line, rest, w)
  end.

(** A computation that only reads lines, one that touches neither lines nor
    world, a call of a service method, and a call of a pure fallible one. *)
Definition reading {A} (f : list string -> cli_result A * list string) : Cli A :=
  fun lines w => let '(r, rest) := f lines in (r, rest, w).

Definition pure_cli {A} (r : cli_result A) : Cli A := fun lines w => (r, lines, w).

Definition call {A} (m : M A) : Cli A := fun lines w =>
  match m w with
  | (Ok a, w') => (Returned a, lines, w')
  | (Raise e, w') => (Raised e, lines, w')
  end.

Definition call_result {A} (r : result A) : Cli A :=
  pure_cli (match r with Ok a => Returned a | Raise e => Raised e end).

(** [d[key]] on a dict and [l[i]] on a list. *)
Definition dict_getitem (d : dict) (key : string) : cli_result string :=
  match d !! key with
  | Some v => Returned v
  | None => RaisedKeyError key
  end.

Definition list_getitem {A} (l : list A) (i : Z) : cli_result A :=
  let n := Z.of_nat (length l) in
  let j := if (i <? 0)%Z then (i + n)%Z else i in
  match (if ((0 <=? j) && (j <? n))%Z then nth_error l (Z.to_nat j) else None) with
  | Some x => Returned x
  | None => Raised (IndexError "list index out of range")
  end.

Section CommandLine.
Context {builtins : StrBuiltins} {client : BaseCryptoClient} {store : DocumentStore}
        {validation : TrackedCoinValidation}.

(** The [while True] loop of the analytics handlers asking for the number
    of records; a limit is accepted when it is above [floor]. *)
Fixpoint read_limit (floor : Z) (lines : list string) : cli_result Z * list string :=
  match lines with
  | [] => (RaisedEOFError, [])
  | line :: rest =>
      let limit_str := if str_truthy (strip line) then strip line else "10" in
      if isdigit limit_str then
        match py_int limit_str with
        | Some n => if (floor <? n)%Z then (Returned n, rest) else read_limit floor rest
        | None => (Raised (int_error limit_str), rest)
        end
      else read_limit floor rest
  end.

Definition handle_market_analytics : Cli MarketAnalytics :=
  line ← input;
  let coin_id := lower (strip line) in
  if negb (str_truthy coin_id) then cli_raise (ValueError "Coin ID cannot be empty.")
  else
    limit ← reading (read_limit 1);
    call (get_market_analytics coin_id limit).

Definition handle_trend_analysis : Cli TrendAnalysis :=
  line ← input;
  let coin_id := lower (strip line) in
  if negb (str_truthy coin_id) then cli_raise (ValueError "Coin ID cannot be empty.")
  else
    limit ← reading (read_limit 3);
    call (get_trend_analysis coin_id limit).

(** The loop of [add_tracked_coin_interactive] printing the matches: it
    reads [coin['name']] and [coin['symbol']] of each. *)
Fixpoint print_matches (matches : list dict) : cli_result unit :=
  match matches with
  | [] => Returned tt
  | coin :: rest =>
      _ ← dict_getitem coin "name";
      _ ← dict_getitem coin "symbol";
      print_matches rest
  end.

(** The [while True] loop asking for the number of the coin to track. *)
Fixpoint read_choice (n_matches : nat) (lines : list string) : cli_result Z * list string :=
  match lines with
  | [] => (RaisedEOFError, [])
  | line :: rest =>
      match py_int (strip line) with
      | Some choice =>
          if ((0 <=? choice) && (choice <=? Z.of_nat n_matches))%Z
          then (Returned choice, rest)
          else read_choice n_matches rest
      | None => read_choice n_matches rest
      end
  end.

(** [matches[0] in MAJOR_COINS.values()] *)
Definition first_is_major (matches : list dict) : bool :=
  match list_getitem matches 0 with
  | Returned first => bool_decide (first ∈ (map_to_list MAJOR_COINS).*2)
  | _ => false
  end.

Definition add_tracked_coin_interactive (query : string) : Cli TrackedCoin :=
  matches ← call_result (search_coins query 10);
  match matches with
  | [] =>
      cli_raise (ValueError ("No quality coins found for query '" +:+ query +:+ "'. "
                             +:+ "Try a different symbol or name."))
  | _ =>
      _ ← pure_cli (print_matches matches);
      selected_coin ←
        (if (length matches =? 1)%nat && first_is_major matches then
           pure_cli (list_getitem matches 0)
         else
           choice ← reading (read_choice (length matches));
           if (choice =? 0)%Z then cli_raise (ValueError "Operation cancelled by user.")
           else pure_cli (list_getitem matches (choice - 1)));
      id ← pure_cli (dict_getitem selected_coin "id");
      symbol ← pure_cli (dict_getitem selected_coin "symbol");
      name ← pure_cli (dict_getitem selected_coin "name");
      call (add_tracked_coin id symbol name)
  end.

(** [s in {"yes", "y", "no", "n"}], [s in {"no", "n"}], [s in {"yes", "y"}] *)
Definition is_answer (s : string) : bool :=
  String.eqb s "yes" || String.eqb s "y" || String.eqb s "no" || String.eqb s "n".
Definition is_no (s : string) : bool := String.eqb s "no" || String.eqb s "n".
Definition is_yes (s : string) : bool := String.eqb s "yes" || String.eqb s "y".

(** The [while True] loop of [handle_delete_coin] asking for a
    confirmation. *)
Fixpoint read_confirm (lines : list string) : cli_result string * list string :=
  match lines with
  | [] => (RaisedEOFError, [])
  | line :: rest =>
      let confirm_str := lower (strip line) in
      if is_answer confirm_str then (Returned confirm_str, rest) else read_confirm rest
  end.

Definition handle_delete_coin : Cli unit :=
  line ← input;
  let coin_id := lower (strip line) in
  if negb (str_truthy coin_id) then cli_raise (ValueError "Coin ID cannot be empty.")
  else
    confirm_str ← reading read_confirm;
    if is_no confirm_str then mret tt
    else
      line ← input;
      let delete_prices_str := lower (strip line) in
      let delete_prices := is_yes delete_prices_str in
      call (delete_tracked_coin coin_id delete_prices).

Definition handle_add_coin : Cli TrackedCoin :=
  line ← input;
  let query := strip line in
  if negb (str_truthy query) then cli_raise (ValueError "Search query cannot be empty.")
  else add_tracked_coin_interactive query.

End CommandLine.

(** Built-ins for the examples: no stripping needed, one or more decimal
    digits, and their value. *)
Fixpoint digits_value (acc : Z) (s : string) : option Z :=
  match s with
  | EmptyString => Some acc
  | String c s' =>
      let n := nat_of_ascii c in
      if ((48 <=? n) && (n <=? 57))%nat
      then digits_value (10 * acc + Z.of_nat (n - 48)) s'
      else None
  end.

Definition digit_builtins : StrBuiltins := {|
  strip := fun s => s;
  isdigit := fun s => str_truthy s && bool_decide (is_Some (digits_value 0 s));
  py_int := fun s => if str_truthy s then digits_value 0 s else None
|}.

(** An entry has the three fields the command line reads. *)
Definition has_fields (m : dict) : Prop :=
  exists id symbol name,
    m !! "id" = Some id /\ m !! "symbol" = Some symbol /\ m !! "name" = Some name.

(** ** [database/mongo.py]: [MongoDBConnection] *)

Record MongoDBConnection : Type := {
  uri : string;
  db_name : string;
  _connected : bool
}.

(** The calls of [mongoengine.connect] and [mongoengine.disconnect] that
    returned. *)
Inductive driver_call : Type :=
| DriverConnect (db host : string)
| DriverDisconnect.

(** What [mongoengine.connect] answers after the calls made so far:
    [Some e] when it raises [e]. *)
Class MongoDriver : Type := {
  connect_error : list driver_call -> string -> string -> option exn
}.

Section Connection.
Context {driver : MongoDriver}.

Definition connect (self : MongoDBConnection) (calls : list driver_call)
  : result unit * MongoDBConnection * list driver_call :=
  if _connected self then (Ok tt, self, calls)
  else
    match connect_error calls (db_name self) (uri self) with
    | Some e => (Raise e, self, calls)
    | None =>
        (Ok tt,
         {| uri := uri self; db_name := db_name self; _connected := true |},
         calls ++ [DriverConnect (db_name self) (uri self)])
    end.

Definition disconnect (self : MongoDBConnection) (calls : list driver_call)
  : result unit * MongoDBConnection * list driver_call :=
  if _connected self then
    (Ok tt,
     {| uri := uri self; db_name := db_name self; _connected := false |},
     calls ++ [DriverDisconnect])
  else (Ok tt, self, calls).

(** A caller's sequence of [connect()] and [disconnect()] calls on one
    connection object, going on after an exception. *)
Inductive connection_op : Type := CallConnect | CallDisconnect.

Fixpoint run_connection (ops : list connection_op)
    (self : MongoDBConnection) (calls : list driver_call)
  : MongoDBConnection * list driver_call :=
  match ops with
  | [] => (self, calls)
  | CallConnect :: rest =>
      let '(_, self', calls') := connect self calls in run_connection rest self' calls'
  | CallDisconnect :: rest =>
      let '(_, self', calls') := disconnect self calls in run_connection rest self' calls'
  end.

End Connection.

(** The state of the driver after a list of calls, from a given state:
    [None] when a connect finds it connected or a disconnect finds it
    unconnected. *)
Fixpoint driver_state (connected : bool) (calls : list driver_call) : option bool :=
  match calls with
  | [] => Some connected
  | DriverConnect _ _ :: rest => if connected then None else driver_state true rest
  | DriverDisconnect :: rest => if connected then driver_state false rest else None
  end.

(** [MongoDBConnection(uri, db_name)] *)
Definition new_connection (uri db_name : string) : MongoDBConnection :=
  {| uri := uri; db_name := db_name; _connected := false |}.

(** * Properties *)

(** ** Helpers: deciding comparisons of reals *)

Ltac real_cases :=
  repeat match goal with
    | |- context [Rgt_dec ?a ?b] => destruct (Rgt_dec a b); try lra
    | |- context [Rlt_dec ?a ?b] => destruct (Rlt_dec a b); try lra
    | |- context [Req_dec_T ?a ?b] => destruct (Req_dec_T a b); try lra
    end.

(** ** Momentum *)

Lemma momentum_raw_nonneg (a b : R) : 0 <= Rabs a * 0.5 + Rabs b * 20.
Proof.
  pose proof (Rabs_pos a). pose proof (Rabs_pos b). lra.
Qed.


(** ** Trend *)

Lemma _calculate_trend_eq (prices : list R) :
  prices <> [] ->
  _calculate_trend prices = Ok (trend_label (norm_slope_of prices), norm_slope_of prices).
Proof.
  intros Hne. destruct prices as [|p prices]; [congruence|]. reflexivity.
Qed.

Lemma _calculate_trend_nil : _calculate_trend [] = Raise (StatisticsError "mean requires at least one data point").
Proof. reflexivity. Qed.

(** Evaluation of the integer sub-terms and of the finite sums of a
    concrete price list. *)
Ltac eval_ints :=
  repeat match goal with
    | |- context [IZR ?z] =>
        let v := eval vm_compute in z in progress change z with v
    | |- context [Z.eqb ?z 0%Z] =>
        let v := eval vm_compute in z in progress change z with v
    end.

Ltac eval_sums :=
  cbv [ols_slope norm_slope_of range sum_R sum_Z]; simpl; eval_ints; simpl.


(** ** Indexing and the built-ins on a non-empty list *)

Lemma nth_pred_length (l : list R) (d : R) :
  nth (Nat.pred (length l)) l d = List.last l d.
Proof.
  induction l as [|x [|y l] IH]; try reflexivity.
  exact IH.
Qed.

Lemma getitem_neg1 (l : list R) :
  l <> [] -> getitem l (-1) = Ok (List.last l 0).
Proof.
  intros Hne. unfold getitem.
  assert (Hlen : (0 < length l)%nat) by (destruct l; [congruence | simpl; lia]).
  change (-1 <? 0)%Z with true. cbv iota.
  replace ((0 <=? -1 + Z.of_nat (length l)) && (-1 + Z.of_nat (length l) <? Z.of_nat (length l)))%Z
    with true by (symmetry; apply andb_true_intro; split; [apply Z.leb_le | apply Z.ltb_lt]; lia).
  replace (Z.to_nat (-1 + Z.of_nat (length l))) with (Nat.pred (length l)) by lia.
  now rewrite nth_pred_length.
Qed.

Lemma getitem_0 (l : list R) :
  l <> [] -> getitem l 0 = Ok (hd 0 l).
Proof.
  intros Hne. destruct l as [|x l]; [congruence|].
  unfold getitem. change (0 <? 0)%Z with false. cbv iota.
  replace ((0 <=? 0) && (0 <? Z.of_nat (length (x :: l))))%Z with true; [reflexivity|].
  symmetry. apply andb_true_intro. split; [reflexivity|]. apply Z.ltb_lt. simpl. lia.
Qed.


(** ** Volatility *)

Lemma _calculate_volatility_short (prices : list R) :
  (length prices < 2)%nat -> _calculate_volatility prices = Ok "Unknown".
Proof.
  intros Hlt. unfold _calculate_volatility.
  destruct (Nat.ltb_spec (length prices) 2); [reflexivity | lia].
Qed.

Lemma _calculate_volatility_eq (prices : list R) :
  (2 <= length prices)%nat ->
  _calculate_volatility prices = Ok (volatility_label (coeff_var_of prices)).
Proof.
  intros Hge. unfold _calculate_volatility, stdev.
  destruct (Nat.ltb_spec (length prices) 2) as [Hlt|_]; [lia|].
  destruct prices as [|p ps]; [simpl in Hge; lia|].
  unfold mean, mbind, result_bind, volatility_label, coeff_var_of, sample_stdev.
  repeat match goal with
    | |- context [Req_dec_T ?a ?b] => destruct (Req_dec_T a b)
    | |- context [Rlt_dec ?a ?b] => destruct (Rlt_dec a b)
    end; reflexivity.
Qed.

Lemma volatility_label_known (cv : R) :
  volatility_label cv = "Low" \/ volatility_label cv = "Medium" \/ volatility_label cv = "High".
Proof. unfold volatility_label. real_cases; auto. Qed.

(** ** Running the analytics operations *)

Section Analytics.
Context {client : BaseCryptoClient} {store : DocumentStore}.
Variables (w : World) (c : string) (limit : Z).

Let history := objects_recent (coin_prices w) c limit.
Let prices := map price history.

Lemma get_market_analytics_short :
  (length history < 2)%nat ->
  get_market_analytics c limit w =
    (Raise (ValueError ("Not enough data for market analysis. "
                        +:+ "Need at least 2 records, but found "
                        +:+ str_of_nat (length history) +:+ ".")),
     queried w c limit).
Proof.
  intros Hlt. unfold get_market_analytics, mbind, M_bind, get_price_history.
  fold history. fold (queried w c limit).
  destruct (Nat.ltb_spec (length history) 2) as [_|Hge]; [reflexivity | lia].
Qed.

Lemma get_market_analytics_enough :
  (2 <= length history)%nat ->
  get_market_analytics c limit w =
    (Ok {| ma_coin_id := c;
           ma_record_count := length history;
           open_price := List.last prices 0;
           close_price := hd 0 prices;
           high_price := fold_left Rmax (tl prices) (hd 0 prices);
           low_price := fold_left Rmin (tl prices) (hd 0 prices);
           average_price := sum_R prices / INR (length prices);
           ma_net_change_percent := net_change_of (List.last prices 0) (hd 0 prices) |},
     queried w c limit).
Proof.
  intros Hge. unfold get_market_analytics, mbind, M_bind, get_price_history.
  fold history. fold (queried w c limit).
  destruct (Nat.ltb_spec (length history) 2) as [Hlt|_]; [lia|].
  fold prices.
  assert (Hne : prices <> []).
  { subst prices. destruct history; [simpl in Hge; lia | discriminate]. }
  unfold lift. rewrite (getitem_neg1 _ Hne), (getitem_0 _ Hne).
  destruct prices as [|p ps]; [congruence|]. reflexivity.
Qed.

Lemma get_trend_analysis_short :
  (length history < 4)%nat ->
  get_trend_analysis c limit w =
    (Raise (ValueError ("Not enough data for trend analysis. "
                        +:+ "Need at least 4 records, but found "
                        +:+ str_of_nat (length history) +:+ ".")),
     queried w c limit).
Proof.
  intros Hlt. unfold get_trend_analysis, mbind, M_bind, get_price_history.
  fold history. fold (queried w c limit).
  destruct (Nat.ltb_spec (length history) 4) as [_|Hge]; [reflexivity | lia].
Qed.

Lemma get_trend_analysis_enough :
  (4 <= length history)%nat ->
  get_trend_analysis c limit w =
    (Ok {| ta_coin_id := c;
           ta_record_count := length prices;
           trend := trend_label (norm_slope_of prices);
           volatility := volatility_label (coeff_var_of prices);
           momentum_score :=
             _calculate_momentum (net_change_of (List.last prices 0) (hd 0 prices))
                                 (norm_slope_of prices);
           ta_net_change_percent := net_change_of (List.last prices 0) (hd 0 prices) |},
     queried w c limit).
Proof.
  intros Hge. unfold get_trend_analysis, mbind, M_bind, get_price_history.
  fold history. fold (queried w c limit).
  destruct (Nat.ltb_spec (length history) 4) as [Hlt|_]; [lia|].
  fold prices.
  assert (Hlen : length prices = length history) by apply length_map.
  assert (Hne : prices <> []).
  { intros E. rewrite E in Hlen. simpl in Hlen. lia. }
  unfold lift.
  rewrite _calculate_volatility_eq by lia.
  rewrite (_calculate_trend_eq _ Hne), (getitem_neg1 _ Hne), (getitem_0 _ Hne).
  reflexivity.
Qed.

End Analytics.

(** ** Oldest and newest observation of a window *)

Lemma last_map_price (history : list CoinPrice) (d : CoinPrice) :
  history <> [] ->
  List.last (map price history) 0 = price (List.last history d).
Proof.
  induction history as [|x [|y l] IH]; intros Hne; try congruence; try reflexivity.
  change (List.last (map price (y :: l)) 0 = price (List.last (y :: l) d)).
  apply IH. discriminate.
Qed.

Lemma hd_map_price (history : list CoinPrice) (d : CoinPrice) :
  history <> [] -> hd 0 (map price history) = price (hd d history).
Proof. destruct history; [congruence | reflexivity]. Qed.

Lemma hd_rev_last (history : list CoinPrice) (d : CoinPrice) :
  hd d (rev history) = List.last history d.
Proof.
  induction history as [|x l IH] using rev_ind; [reflexivity|].
  rewrite rev_unit, List.last_last. reflexivity.
Qed.

Lemma nth_error_last (history : list CoinPrice) (d : CoinPrice) :
  history <> [] ->
  nth_error history (Nat.pred (length history)) = Some (List.last history d).
Proof.
  induction history as [|x l IH] using rev_ind; [congruence|]. intros _.
  rewrite List.last_last, length_app, Nat.add_1_r. simpl.
  rewrite nth_error_app2 by lia. now rewrite Nat.sub_diag.
Qed.

Lemma newest_first_bounds (history : list CoinPrice) (d o : CoinPrice) :
  newest_first history -> In o history ->
  (timestamp (List.last history d) <= timestamp o <= timestamp (hd d history))%Z.
Proof.
  intros Hsorted Hin.
  assert (Hne : history <> []) by (destruct history; [destruct Hin | discriminate]).
  destruct (In_nth_error _ _ Hin) as [i Hi].
  assert (Hlt : (i < length history)%nat) by (apply nth_error_Some; congruence).
  split.
  - apply (Hsorted i (Nat.pred (length history)) o (List.last history d)); auto.
    + lia.
    + now apply nth_error_last.
  - apply (Hsorted 0%nat i (hd d history) o); auto.
    + lia.
    + destruct history; [congruence | reflexivity].
Qed.

(** ** Sums and constant sequences *)

Lemma fold_left_Rplus_acc (l : list R) (a : R) :
  fold_left Rplus l a = a + sum_R l.
Proof.
  unfold sum_R. revert a.
  induction l as [|x l IH]; intros a; simpl; [lra|].
  rewrite (IH (a + x)), (IH (0 + x)). lra.
Qed.

Lemma sum_R_cons (x : R) (l : list R) : sum_R (x :: l) = x + sum_R l.
Proof. unfold sum_R at 1. simpl. rewrite fold_left_Rplus_acc. lra. Qed.

Lemma sum_R_repeat (x : R) (n : nat) : sum_R (repeat x n) = INR n * x.
Proof.
  induction n as [|n IH]; [simpl; unfold sum_R; simpl; lra|].
  rewrite S_INR. change (repeat x (S n)) with (x :: repeat x n).
  rewrite sum_R_cons, IH. lra.
Qed.

Lemma map_repeat_R (f : R -> R) (x : R) (n : nat) :
  map f (repeat x n) = repeat (f x) n.
Proof. induction n as [|n IH]; [reflexivity|]. simpl. now rewrite IH. Qed.

Lemma coeff_var_of_repeat (x : R) (n : nat) :
  (2 <= n)%nat -> coeff_var_of (repeat x n) = 0.
Proof.
  intros Hn. unfold coeff_var_of, sample_stdev.
  rewrite repeat_length, sum_R_repeat.
  assert (Hn0 : INR n <> 0) by (apply not_0_INR; lia).
  replace (INR n * x / INR n) with x by (field; exact Hn0).
  rewrite map_repeat_R, sum_R_repeat.
  replace (INR n * ((x - x) * (x - x)) / (INR n - 1)) with 0
    by (unfold Rdiv; ring).
  rewrite sqrt_0.
  destruct (Req_dec_T x 0); [reflexivity|]. unfold Rdiv. ring.
Qed.

(** ** The recording loop *)

Section Recording.
Context {client : BaseCryptoClient} {store : DocumentStore}.

Lemma record_price_for_coin_ok (c : string) (p : R) (w : World) :
  get_price c = Ok p ->
  exists w', record_price_for_coin c w =
             (Ok {| coin_id := c; price := p; timestamp := utc_now (clock_reads w) |}, w').
Proof.
  intros Hp. unfold record_price_for_coin, mbind, M_bind, lift. rewrite Hp.
  eexists. reflexivity.
Qed.

Lemma record_price_for_coin_fail (c : string) (e : exn) (w : World) :
  get_price c = Raise e -> record_price_for_coin c w = (Raise e, w).
Proof.
  intros Hp. unfold record_price_for_coin, mbind, M_bind, lift. now rewrite Hp.
Qed.

Lemma record_loop_ok (coins : list TrackedCoin) :
  forall (acc : list CoinPrice) (w : World),
  exists snaps w',
    record_loop coins acc w = (Ok (acc ++ snaps), w')
    /\ map coin_id snaps = map tc_coin_id (List.filter fetch_ok coins)
    /\ Forall (fun s => get_price (coin_id s) = Ok (price s)) snaps.
Proof.
  induction coins as [|t rest IH]; intros acc w.
  - exists [], w. rewrite app_nil_r. repeat split; constructor.
  - cbn [record_loop List.filter]. unfold fetch_ok at 1.
    unfold mbind at 1, M_bind at 1, try_except.
    unfold mbind at 1, M_bind at 1.
    destruct (get_price (tc_coin_id t)) as [p|e] eqn:Hp.
    + destruct (record_price_for_coin_ok _ _ w Hp) as [w1 Hrec]. rewrite Hrec.
      cbn [mret M_ret is_ok].
      destruct (IH (acc ++ [ {| coin_id := tc_coin_id t; price := p;
                                timestamp := utc_now (clock_reads w) |} ]) w1)
        as (snaps & w' & Hloop & Hids & Hall).
      eexists (_ :: snaps), w'. rewrite Hloop, <- app_assoc.
      split; [reflexivity|]. split; [simpl; now rewrite Hids|].
      constructor; [exact Hp | exact Hall].
    + rewrite (record_price_for_coin_fail _ _ w Hp). cbn [mret M_ret is_ok].
      destruct (IH acc w) as (snaps & w' & Hloop & Hids & Hall).
      exists snaps, w'. auto.
Qed.

Lemma filter_all (f : TrackedCoin -> bool) (l : list TrackedCoin) :
  (forall t, In t l -> f t = true) -> List.filter f l = l.
Proof.
  induction l as [|x l IH]; intros H; [reflexivity|]. simpl.
  rewrite (H x) by (left; reflexivity). f_equal. apply IH. intros t Ht. apply H. now right.
Qed.

End Recording.

(** ** Strings *)

Lemma prefix_append (s t : string) : String.prefix s (s +:+ t) = true.
Proof.
  induction s as [|c s IH]; [destruct t; reflexivity|].
  simpl. destruct (ascii_dec c c); [exact IH | congruence].
Qed.

Lemma str_in_prefix (sub s : string) :
  String.prefix sub s = true -> str_in sub s = true.
Proof. intros H. destruct s; cbn [str_in]; rewrite H; reflexivity. Qed.

Lemma str_in_append (sub pre post : string) :
  str_in sub (pre +:+ sub +:+ post) = true.
Proof.
  induction pre as [|c pre IH].
  - change (str_in sub (sub +:+ post) = true).
    apply str_in_prefix, prefix_append.
  - change (str_in sub (String c (pre +:+ sub +:+ post)) = true).
    cbn [str_in]. rewrite IH. destruct (String.prefix _ _); reflexivity.
Qed.

Lemma lower_append (s t : string) : lower (s +:+ t) = lower s +:+ lower t.
Proof. induction s as [|c s IH]; [reflexivity|]. simpl. now rewrite IH. Qed.

Lemma length_lower (s : string) : String.length (lower s) = String.length s.
Proof. induction s as [|c s IH]; [reflexivity|]. simpl. now rewrite IH. Qed.

Lemma contains_str_in_lower (sub s : string) :
  lower sub = sub -> contains sub s -> str_in sub (lower s) = true.
Proof.
  intros Hsub (pre & post & ->).
  rewrite !lower_append, Hsub. apply str_in_append.
Qed.

(** ** The search loop *)

Lemma search_loop_found (query : string) (limit : Z) (all_coins : list dict) :
  forall results : list dict,
  exists found,
    search_loop query limit all_coins results = results ++ found
    /\ Forall (fun coin => In coin all_coins
                           /\ quality_ok coin = true
                           /\ query_matches query coin = true) found.
Proof.
  induction all_coins as [|coin rest IH]; intros results.
  - exists []. rewrite app_nil_r. split; [reflexivity | constructor].
  - assert (Hskip : exists found,
               search_loop query limit rest results = results ++ found
               /\ Forall (fun c => In c (coin :: rest) /\ quality_ok c = true
                                   /\ query_matches query c = true) found).
    { destruct (IH results) as (found & Hrun & Hall). exists found. split; [exact Hrun|].
      eapply List.Forall_impl; [|exact Hall]. intros c (Hin & Hq & Hm). repeat split; auto.
      now right. }
    cbn [search_loop].
    destruct (forallb str_truthy _) eqn:Htruthy; cbn [negb]; [|exact Hskip].
    destruct (str_in "." _ || _) eqn:Hsym; [exact Hskip|].
    destruct (existsb (fun kw => str_in kw _) name_keywords) eqn:Hkw; [exact Hskip|].
    destruct (existsb (String.eqb query) _) eqn:Hmatch; [|exact Hskip].
    assert (Hcoin : In coin (coin :: rest) /\ quality_ok coin = true
                    /\ query_matches query coin = true).
    { split; [now left|]. split; [|exact Hmatch].
      unfold quality_ok. cbv zeta. rewrite Htruthy, Hsym, Hkw. reflexivity. }
    destruct (limit <=? _)%Z.
    + exists [coin]. split; [reflexivity|]. constructor; [exact Hcoin | constructor].
    + destruct (IH (results ++ [coin])) as (found & Hrun & Hall).
      exists (coin :: found). rewrite Hrun, <- app_assoc. split; [reflexivity|].
      constructor; [exact Hcoin|].
      eapply List.Forall_impl; [|exact Hall]. intros c (Hin & Hq & Hm). repeat split; auto.
      now right.
Qed.

(** ** The slope of a reversed window *)

Lemma sum_R_app (l l' : list R) : sum_R (l ++ l') = sum_R l + sum_R l'.
Proof.
  unfold sum_R at 1. rewrite fold_left_app, fold_left_Rplus_acc.
  fold (sum_R l). lra.
Qed.

Lemma sum_R_rev (l : list R) : sum_R (rev l) = sum_R l.
Proof.
  induction l as [|x l IH]; [reflexivity|].
  cbn [rev]. rewrite sum_R_app, IH, !sum_R_cons. change (sum_R []) with 0. lra.
Qed.

Lemma sum_R_map_plus (f g : nat -> R) (l : list nat) :
  sum_R (map (fun i => f i + g i) l) = sum_R (map f l) + sum_R (map g l).
Proof.
  induction l as [|i l IH]; [unfold sum_R; simpl; lra|].
  cbn [map]. rewrite !sum_R_cons, IH. lra.
Qed.

Lemma map_nth_range (l : list R) :
  map (fun i => nth i l 0) (range (length l)) = l.
Proof.
  unfold range. induction l as [|x l IH] using rev_ind; [reflexivity|].
  rewrite length_app, Nat.add_1_r, seq_S, map_app. cbn [map Nat.add].
  rewrite app_nth2, Nat.sub_diag by lia. cbn [nth]. f_equal.
  rewrite <- IH at 2. apply map_ext_in. intros i Hi. apply in_seq in Hi.
  apply app_nth1. lia.
Qed.

Lemma index_weighted_sum_snoc (l : list R) (x : R) :
  index_weighted_sum (l ++ [x]) = index_weighted_sum l + INR (length l) * x.
Proof.
  unfold index_weighted_sum, range.
  rewrite length_app, Nat.add_1_r, seq_S, map_app, sum_R_app. cbn [map Nat.add].
  rewrite app_nth2, Nat.sub_diag by lia. cbn [nth].
  rewrite sum_R_cons. change (sum_R []) with 0.
  rewrite (map_ext_in (fun i => INR i * nth i (l ++ [x]) 0) (fun i => INR i * nth i l 0)).
  - lra.
  - intros i Hi. apply in_seq in Hi. rewrite app_nth1 by lia. reflexivity.
Qed.

Lemma index_weighted_sum_cons (x : R) (l : list R) :
  index_weighted_sum (x :: l) = index_weighted_sum l + sum_R l.
Proof.
  unfold index_weighted_sum, range. cbn [length seq map nth].
  rewrite sum_R_cons, <- seq_shift, map_map.
  rewrite (map_ext (fun i => INR (S i) * nth (S i) (x :: l) 0)
                   (fun i => INR i * nth i l 0 + nth i l 0))
    by (intros i; rewrite S_INR; cbn [nth]; ring).
  rewrite sum_R_map_plus. fold (range (length l)). rewrite map_nth_range.
  change (INR 0) with 0. lra.
Qed.

Lemma index_weighted_sum_rev (l : list R) :
  index_weighted_sum (rev l) = (INR (length l) - 1) * sum_R l - index_weighted_sum l.
Proof.
  induction l as [|x l IH].
  - unfold index_weighted_sum, sum_R. simpl. lra.
  - cbn [rev]. rewrite index_weighted_sum_snoc, IH, length_rev.
    rewrite index_weighted_sum_cons, sum_R_cons.
    change (length (x :: l)) with (S (length l)). rewrite S_INR. ring.
Qed.

Lemma fold_left_Zadd_acc (l : list Z) (a : Z) :
  fold_left Z.add l a = (a + sum_Z l)%Z.
Proof.
  unfold sum_Z. revert a.
  induction l as [|x l IH]; intros a; simpl; [lia|].
  rewrite (IH (a + x)%Z), ?(IH (0 + x)%Z), ?(IH x). lia.
Qed.

Lemma sum_range_twice (n : nat) :
  (2 * sum_Z (map Z.of_nat (range n)) = Z.of_nat n * (Z.of_nat n - 1))%Z.
Proof.
  unfold range. induction n as [|n IH]; [reflexivity|].
  rewrite seq_S, map_app. unfold sum_Z in *. rewrite fold_left_app. cbn [map fold_left Nat.add].
  nia.
Qed.

Lemma ols_slope_rev (l : list R) : ols_slope (rev l) = - ols_slope l.
Proof.
  unfold ols_slope. cbv zeta. rewrite length_rev, sum_R_rev.
  fold (index_weighted_sum (rev l)).
  replace (sum_R (map (fun i => INR i * nth i (rev l) 0) (range (length l))))
    with (index_weighted_sum (rev l))
    by (unfold index_weighted_sum; now rewrite length_rev).
  fold (index_weighted_sum l). rewrite index_weighted_sum_rev.
  destruct (_ =? 0)%Z; [lra|].
  pose proof (sum_range_twice (length l)) as Hx.
  apply (f_equal IZR) in Hx.
  rewrite !mult_IZR, minus_IZR, <- INR_IZR_INZ in Hx.
  set (n := INR (length l)) in *.
  set (sx := IZR (sum_Z (map Z.of_nat (range (length l))))) in *.
  set (sy := sum_R l). set (sxy := index_weighted_sum l).
  replace (n * ((n - 1) * sy - sxy) - sx * sy) with (- (n * sxy - sx * sy)).
  - unfold Rdiv. ring.
  - transitivity (n * (n - 1) * sy - n * sxy - sx * sy); [|ring].
    rewrite <- Hx. ring.
Qed.

Lemma norm_slope_of_rev (l : list R) : norm_slope_of (rev l) = - norm_slope_of l.
Proof.
  unfold norm_slope_of. cbv zeta. rewrite length_rev, sum_R_rev, ols_slope_rev.
  destruct (Req_dec_T _ _); [lra|]. unfold Rdiv. ring.
Qed.

(** On every window of at least 4 records the reported label is that of the
    negated normalized slope of the chronological prices. *)
Lemma trend_analysis_label_negated
    (store : DocumentStore) (w : World) (c : string) (limit : Z) :
  let history := objects_recent (coin_prices w) c limit in
  (4 <= length history)%nat ->
  exists a, fst (get_trend_analysis c limit w) = Ok a
            /\ trend a = trend_label (- norm_slope_of (map price (rev history))).
Proof.
  intros history Hge. rewrite get_trend_analysis_enough by exact Hge.
  eexists. split; [reflexivity|]. cbn [trend].
  rewrite map_rev, norm_slope_of_rev. fold history. f_equal. lra.
Qed.

(** * The claims *)

(** C1, on the code: the window is fed to the trend calculator as fetched,
    newest first.  For the chronological prices 1, 2, 3, 4 the calculator
    gives a strong uptrend with normalized slope 40, while
    [get_trend_analysis] on the window the store returns for them reports a
    strong downtrend. *)
Theorem trend_analysis_uses_fetched_order :
  let w := world_of [1; 2; 3; 4] in
  let history := objects_recent (DocumentStore := mongo_store) (coin_prices w) "bitcoin" 4 in
  map price history = [4; 3; 2; 1]
  /\ map timestamp history = [3; 2; 1; 0]%Z
  /\ _calculate_trend (map price (rev history)) = Ok ("Strong Uptrend", 40)
  /\ exists a, fst (get_trend_analysis (store := mongo_store) "bitcoin" 4 w) = Ok a
               /\ trend a = "Strong Downtrend".
Proof.
  cbv zeta. split; [reflexivity|]. split; [reflexivity|]. split.
  - rewrite _calculate_trend_eq by discriminate.
    assert (E : norm_slope_of (map price (rev (objects_recent (DocumentStore := mongo_store)
                  (coin_prices (world_of [1; 2; 3; 4])) "bitcoin" 4))) = 40).
    { change (norm_slope_of [1; 2; 3; 4] = 40). eval_sums. real_cases. }
    rewrite E. unfold trend_label. real_cases. reflexivity.
  - eexists. split.
    + rewrite get_trend_analysis_enough by (simpl; lia). reflexivity.
    + cbn [trend].
      assert (E : norm_slope_of (map price (objects_recent (DocumentStore := mongo_store)
                    (coin_prices (world_of [1; 2; 3; 4])) "bitcoin" 4)) = -40).
      { change (norm_slope_of [4; 3; 2; 1] = -40). eval_sums. real_cases. }
      rewrite E. unfold trend_label. real_cases. reflexivity.
Qed.

(** C2: [get_market_analytics] fails with the insufficient-data error exactly
    when the store returns fewer than 2 records and otherwise succeeds with
    [record_count] the number of records returned (2 for exactly 2 records);
    [get_trend_analysis] fails with it exactly when fewer than 4 records are
    returned and succeeds otherwise, in particular at exactly 4. *)
Theorem insufficient_data_guards
    (store : DocumentStore)
    (w : World) (c : string) (limit : Z) :
  let history := objects_recent (coin_prices w) c limit in
  (is_insufficient_data (fst (get_market_analytics c limit w)) <-> (length history < 2)%nat)
  /\ ((2 <= length history)%nat ->
      exists a, fst (get_market_analytics c limit w) = Ok a
                /\ ma_record_count a = length history)
  /\ (length history = 2%nat ->
      exists a, fst (get_market_analytics c limit w) = Ok a /\ ma_record_count a = 2%nat)
  /\ (is_insufficient_data (fst (get_trend_analysis c limit w)) <-> (length history < 4)%nat)
  /\ ((4 <= length history)%nat ->
      exists a, fst (get_trend_analysis c limit w) = Ok a
                /\ ta_record_count a = length history)
  /\ (length history = 4%nat ->
      exists a, fst (get_trend_analysis c limit w) = Ok a /\ ta_record_count a = 4%nat).
Proof.
  intros history.
  assert (Hm : (2 <= length history)%nat ->
               exists a, fst (get_market_analytics c limit w) = Ok a
                         /\ ma_record_count a = length history).
  { intros Hge. rewrite get_market_analytics_enough by exact Hge.
    eexists. split; reflexivity. }
  assert (Ht : (4 <= length history)%nat ->
               exists a, fst (get_trend_analysis c limit w) = Ok a
                         /\ ta_record_count a = length history).
  { intros Hge. rewrite get_trend_analysis_enough by exact Hge.
    eexists. split; [reflexivity|]. apply length_map. }
  repeat split.
  - intros Herr. destruct (Nat.lt_ge_cases (length history) 2) as [|Hge]; [assumption|].
    destruct (Hm Hge) as (a & Ha & _). rewrite Ha in Herr. destruct Herr.
  - intros Hlt. rewrite get_market_analytics_short by exact Hlt. reflexivity.
  - exact Hm.
  - intros H2. destruct Hm as (a & Ha & Hn); [lia|]. exists a. split; [exact Ha | lia].
  - intros Herr. destruct (Nat.lt_ge_cases (length history) 4) as [|Hge]; [assumption|].
    destruct (Ht Hge) as (a & Ha & _). rewrite Ha in Herr. destruct Herr.
  - intros Hlt. rewrite get_trend_analysis_short by exact Hlt. reflexivity.
  - exact Ht.
  - intros H4. destruct Ht as (a & Ha & Hn); [lia|]. exists a. split; [exact Ha | lia].
Qed.

Lemma insufficient_data_guards_witness :
  (exists a, fst (get_market_analytics (store := mongo_store)
                    "bitcoin" 2 (world_of [100; 110])) = Ok a
             /\ ma_record_count a = 2%nat)
  /\ is_insufficient_data
       (fst (get_trend_analysis (store := mongo_store)
               "bitcoin" 10 (world_of [100; 110; 120]))).
Proof.
  split.
  - apply (insufficient_data_guards mongo_store (world_of [100; 110]) "bitcoin" 2).
    reflexivity.
  - apply (insufficient_data_guards mongo_store (world_of [100; 110; 120]) "bitcoin" 10).
    simpl. lia.
Defined.

(** C3, as stated, fails: with a limit of 0, and with a negative limit, both
    operations query the store and succeed on the records it returns. *)
Lemma nonpositive_limit_not_rejected :
  let gma := get_market_analytics (store := mongo_store) in
  let gta := get_trend_analysis (store := mongo_store) in
  let w := world_of [100; 110; 120; 130] in
  is_ok (fst (gma "bitcoin" 0%Z w)) = true
  /\ history_queries (snd (gma "bitcoin" 0%Z w)) = [("bitcoin", 0%Z)]
  /\ is_ok (fst (gma "bitcoin" (-5)%Z w)) = true
  /\ history_queries (snd (gma "bitcoin" (-5)%Z w)) = [("bitcoin", (-5)%Z)]
  /\ is_ok (fst (gta "bitcoin" 0%Z w)) = true
  /\ history_queries (snd (gta "bitcoin" 0%Z w)) = [("bitcoin", 0%Z)]
  /\ is_ok (fst (gta "bitcoin" (-5)%Z w)) = true
  /\ history_queries (snd (gta "bitcoin" (-5)%Z w)) = [("bitcoin", (-5)%Z)].
Proof.
  cbv zeta.
  rewrite !(get_market_analytics_enough (store := mongo_store))
    by (simpl; lia).
  rewrite !(get_trend_analysis_enough (store := mongo_store))
    by (simpl; lia).
  repeat split.
Qed.

(** C3, amended: for every limit, zero and negative ones included, neither
    operation checks the limit: each sends exactly one history query, with
    the given coin and limit, to the store, and then succeeds or fails with
    the insufficient-data error. *)
Theorem limit_passed_to_store_unchecked
    (store : DocumentStore)
    (w : World) (c : string) (limit : Z) :
  snd (get_market_analytics c limit w) = queried w c limit
  /\ snd (get_trend_analysis c limit w) = queried w c limit
  /\ (is_ok (fst (get_market_analytics c limit w)) = true
      \/ is_insufficient_data (fst (get_market_analytics c limit w)))
  /\ (is_ok (fst (get_trend_analysis c limit w)) = true
      \/ is_insufficient_data (fst (get_trend_analysis c limit w))).
Proof.
  set (history := objects_recent (coin_prices w) c limit).
  destruct (Nat.lt_ge_cases (length history) 2) as [Hm|Hm];
  destruct (Nat.lt_ge_cases (length history) 4) as [Ht|Ht]; try lia.
  - rewrite get_market_analytics_short, get_trend_analysis_short by assumption.
    repeat split; right; reflexivity.
  - rewrite get_market_analytics_enough, get_trend_analysis_short by assumption.
    repeat split; [left | right]; reflexivity.
  - rewrite get_market_analytics_enough, get_trend_analysis_enough by assumption.
    repeat split; left; reflexivity.
Qed.

(** C4: on a window of at least 2 observations returned newest-first,
    [get_market_analytics] sets [open_price] to the price of the
    chronologically oldest observation (the first of the reversed window)
    and [close_price] to the price of the newest; [net_change_percent] is
    [(close - open) / open * 100], and [0] when [open_price] is [0];
    chronological prices [100, 110] give [10] and [100, 0] give [-100]. *)
Theorem open_close_net_change
    (store : DocumentStore) (w : World) (c : string) (limit : Z) :
  let history := objects_recent (coin_prices w) c limit in
  (2 <= length history)%nat ->
  exists a oldest newest,
    fst (get_market_analytics c limit w) = Ok a
    /\ hd_error (rev history) = Some oldest
    /\ hd_error history = Some newest
    /\ (newest_first history ->
        forall o, In o history ->
          (timestamp oldest <= timestamp o <= timestamp newest)%Z)
    /\ open_price a = price oldest
    /\ close_price a = price newest
    /\ (open_price a <> 0 ->
        ma_net_change_percent a = (close_price a - open_price a) / open_price a * 100)
    /\ (open_price a = 0 -> ma_net_change_percent a = 0)
    /\ (map price (rev history) = [100; 110] -> ma_net_change_percent a = 10)
    /\ (map price (rev history) = [100; 0] -> ma_net_change_percent a = -100).
Proof.
  intros history Hge.
  destruct history as [|h0 rest] eqn:Hh; [simpl in Hge; lia|].
  assert (Hne : h0 :: rest <> []) by discriminate.
  pose proof (get_market_analytics_enough w c limit) as Hrun.
  fold history in Hrun. rewrite Hh in Hrun. specialize (Hrun Hge).
  rewrite (last_map_price _ h0 Hne), (hd_map_price _ h0 Hne) in Hrun.
  eexists. exists (List.last (h0 :: rest) h0), h0.
  split; [rewrite Hrun; reflexivity|].
  assert (Hrev : forall l : list CoinPrice, l <> [] -> hd_error (rev l) = Some (hd h0 (rev l))).
  { intros l Hl. destruct (rev l) eqn:E; [|reflexivity].
    apply (f_equal (@rev _)) in E. rewrite rev_involutive in E. contradiction. }
  split; [rewrite (Hrev _ Hne), hd_rev_last; reflexivity|].
  split; [reflexivity|].
  split; [intros Hs o Ho; apply (newest_first_bounds _ h0 o Hs Ho)|].
  cbn [open_price close_price ma_net_change_percent hd].
  split; [reflexivity|]. split; [reflexivity|].
  unfold net_change_of.
  split; [intros Hz; destruct (Req_dec_T _ _); [contradiction | reflexivity]|].
  split; [intros Hz; destruct (Req_dec_T _ _); [reflexivity | contradiction]|].
  assert (Hprices : forall p q, map price (rev (h0 :: rest)) = [p; q] ->
                                price (List.last (h0 :: rest) h0) = p /\ price h0 = q).
  { intros p q E.
    assert (E' : map price (h0 :: rest) = [q; p]).
    { rewrite <- (rev_involutive (h0 :: rest)), map_rev, E. reflexivity. }
    destruct rest as [|h1 [|h2 rest']]; simpl in E'; inversion E'; subst.
    split; reflexivity. }
  split; intros E; destruct (Hprices _ _ E) as [-> ->]; real_cases.
Qed.

Lemma open_close_net_change_witness :
  exists a,
    fst (get_market_analytics (store := mongo_store) "bitcoin" 5 (world_of [1; 2; 3; 4; 5])) = Ok a
    /\ open_price a = 1 /\ close_price a = 5.
Proof.
  destruct (open_close_net_change mongo_store (world_of [1; 2; 3; 4; 5]) "bitcoin" 5)
    as (a & oldest & newest & Ha & Ho & Hn & _ & Hopen & Hclose & _).
  - simpl. lia.
  - exists a. injection Ho as <-. injection Hn as <-.
    split; [exact Ha|]. split; [exact Hopen | exact Hclose].
Defined.

(** C5: fewer than 2 prices are classified ["Unknown"]; for [n >= 2] prices
    the coefficient of variation [cv] is the sample standard deviation
    (divisor [n - 1]) over the mean, [0] when the mean is [0], and the class
    is ["Low"] when [cv < 0.01], ["Medium"] when [0.01 <= cv < 0.05] and
    ["High"] when [cv >= 0.05]; every constant sequence of 2 or more prices
    is ["Low"]. *)
Theorem volatility_classification (prices : list R) :
  ((length prices < 2)%nat -> _calculate_volatility prices = Ok "Unknown")
  /\ ((2 <= length prices)%nat ->
      let n := INR (length prices) in
      let mu := sum_R prices / n in
      let sigma := sqrt (sum_R (map (fun x => (x - mu) ^ 2) prices) / (n - 1)) in
      let cv := if Req_dec_T mu 0 then 0 else sigma / mu in
      (cv < 0.01 -> _calculate_volatility prices = Ok "Low")
      /\ (0.01 <= cv < 0.05 -> _calculate_volatility prices = Ok "Medium")
      /\ (0.05 <= cv -> _calculate_volatility prices = Ok "High"))
  /\ (forall (x : R) (k : nat),
        prices = repeat x k -> (2 <= k)%nat -> _calculate_volatility prices = Ok "Low").
Proof.
  split; [apply _calculate_volatility_short|]. split.
  - intros Hge n mu sigma cv.
    rewrite (_calculate_volatility_eq _ Hge).
    assert (Hcv : coeff_var_of prices = cv).
    { unfold coeff_var_of, sample_stdev. subst cv sigma mu n. cbv zeta.
      rewrite (map_ext (fun x => (x - sum_R prices / INR (length prices)) ^ 2)
                       (fun x => (x - sum_R prices / INR (length prices))
                                 * (x - sum_R prices / INR (length prices))))
        by (intros; ring).
      reflexivity. }
    rewrite Hcv. unfold volatility_label.
    repeat split; intros H; real_cases; reflexivity.
  - intros x k -> Hk.
    rewrite _calculate_volatility_eq by (rewrite repeat_length; exact Hk).
    rewrite (coeff_var_of_repeat _ _ Hk). unfold volatility_label. real_cases. reflexivity.
Qed.

Lemma volatility_classification_witness :
  _calculate_volatility [7] = Ok "Unknown"
  /\ _calculate_volatility [99; 100; 101] = Ok "Medium"
  /\ _calculate_volatility [95; 100; 105] = Ok "High"
  /\ _calculate_volatility [42; 42; 42] = Ok "Low".
Proof.
  split; [apply (volatility_classification [7]); simpl; lia|].
  split; [|split].
  - apply (volatility_classification [99; 100; 101]); [simpl; lia|].
    cbv [sum_R map fold_left length]. simpl INR.
    replace ((0 + 99 + 100 + 101) / (1 + 1 + 1)) with 100 by lra.
    replace ((0 + (99 - 100) ^ 2 + (100 - 100) ^ 2 + (101 - 100) ^ 2) / (1 + 1 + 1 - 1))
      with 1 by lra.
    rewrite sqrt_1. real_cases.
  - apply (volatility_classification [95; 100; 105]); [simpl; lia|].
    cbv [sum_R map fold_left length]. simpl INR.
    replace ((0 + 95 + 100 + 105) / (1 + 1 + 1)) with 100 by lra.
    replace ((0 + (95 - 100) ^ 2 + (100 - 100) ^ 2 + (105 - 100) ^ 2) / (1 + 1 + 1 - 1))
      with (5 * 5) by lra.
    rewrite sqrt_square by lra. real_cases.
  - apply (volatility_classification [42; 42; 42] ) with (x := 42) (k := 3%nat);
      [reflexivity | lia].
Defined.

(** C6: the trend label follows from the normalized slope by the strict
    comparisons [> 0.5] (strong uptrend), [> 0.1] (uptrend), [< -0.5]
    (strong downtrend), [< -0.1] (downtrend), otherwise sideways, the first
    that holds deciding; a normalized slope of exactly [0.1] is sideways. *)
Theorem trend_label_thresholds (prices : list R) (label : string) (s : R) :
  _calculate_trend prices = Ok (label, s) ->
  s = norm_slope_of prices
  /\ (s > 0.5 -> label = "Strong Uptrend")
  /\ (~ s > 0.5 -> s > 0.1 -> label = "Uptrend")
  /\ (~ s > 0.5 -> ~ s > 0.1 -> s < -0.5 -> label = "Strong Downtrend")
  /\ (~ s > 0.5 -> ~ s > 0.1 -> ~ s < -0.5 -> s < -0.1 -> label = "Downtrend")
  /\ (~ s > 0.5 -> ~ s > 0.1 -> ~ s < -0.5 -> ~ s < -0.1 -> label = "Sideways")
  /\ (s = 0.1 -> label = "Sideways")
  /\ (s = 0.5 -> label = "Uptrend")
  /\ (s = -0.1 -> label = "Sideways")
  /\ (s = -0.5 -> label = "Downtrend").
Proof.
  intros Hrun.
  destruct prices as [|p ps]; [discriminate|].
  rewrite _calculate_trend_eq in Hrun by discriminate.
  injection Hrun as <- <-.
  split; [reflexivity|].
  unfold trend_label.
  repeat split; intros; real_cases; reflexivity.
Qed.

Lemma trend_label_thresholds_witness :
  _calculate_trend [1999; 2001] = Ok ("Sideways", 0.1).
Proof.
  assert (Hs : norm_slope_of [1999; 2001] = 0.1) by (eval_sums; real_cases).
  assert (Hrun : _calculate_trend [1999; 2001] = Ok (trend_label 0.1, 0.1)).
  { rewrite _calculate_trend_eq by discriminate. rewrite Hs. reflexivity. }
  rewrite Hrun. do 2 f_equal.
  destruct (trend_label_thresholds [1999; 2001] (trend_label 0.1) 0.1 Hrun)
    as (_ & _ & _ & _ & _ & _ & Htie & _).
  apply Htie. reflexivity.
Defined.

(** C7: the momentum score is [|netChangePercent| * 0.5 + |normSlope| * 20]
    clamped to [[0, 10]]; a raw value above 10 gives exactly 10, the score is
    always within [[0, 10]], and the lower clamp never engages. *)
Theorem momentum_clamp (net_change_percent norm_slope : R) :
  let raw := Rabs net_change_percent * 0.5 + Rabs norm_slope * 20 in
  _calculate_momentum net_change_percent norm_slope = clamp 0 10 raw
  /\ (raw > 10 -> _calculate_momentum net_change_percent norm_slope = 10)
  /\ (raw <= 10 -> _calculate_momentum net_change_percent norm_slope = raw)
  /\ 0 <= _calculate_momentum net_change_percent norm_slope <= 10
  /\ Rmax raw 0 = raw.
Proof.
  intros raw.
  assert (Hraw : 0 <= raw) by apply momentum_raw_nonneg.
  assert (Hmax : Rmax raw 0 = raw) by (apply Rmax_left; lra).
  unfold _calculate_momentum. fold raw. rewrite Hmax.
  unfold clamp, Rmin.
  destruct (Rle_dec raw 10); real_cases; repeat split; intros; lra.
Qed.

Lemma momentum_clamp_witness :
  _calculate_momentum 30 (-2) = 10 /\ _calculate_momentum 4 0.1 = 4.
Proof.
  split.
  - apply (momentum_clamp 30 (-2)).
    rewrite (Rabs_right 30), (Rabs_left (-2)); lra.
  - replace 4 with (Rabs 4 * 0.5 + Rabs 0.1 * 20) at 2
      by (rewrite !Rabs_right; lra).
    apply (momentum_clamp 4 0.1).
    rewrite !Rabs_right; lra.
Defined.

(** C8: for a query that is not a key of the priority table, every entry
    [search_coins] returns is an entry of the catalog whose symbol has no
    ['.'] and at most 10 characters and whose name contains none of
    ["-peg"], ["wrapped"], ["token"], ["staked"], whatever the query matched. *)
Theorem search_results_pass_filters
    (client : BaseCryptoClient) (query : string) (limit : Z) (results : list dict) :
  MAJOR_COINS !! lower query = None ->
  search_coins query limit = Ok results ->
  forall coin, In coin results ->
    (exists catalog, get_supported_coins_with_details = Ok catalog /\ In coin catalog)
    /\ (forall symbol, coin !! "symbol" = Some symbol ->
          ~ contains "." symbol /\ (String.length symbol <= 10)%nat)
    /\ (forall name kw, coin !! "name" = Some name ->
          In kw ["-peg"; "wrapped"; "token"; "staked"] -> ~ contains kw name).
Proof.
  intros Hmiss Hrun coin Hin.
  unfold search_coins in Hrun. cbv zeta in Hrun. rewrite Hmiss in Hrun.
  destruct get_supported_coins_with_details as [catalog|e] eqn:Hcat; [|discriminate].
  cbn [mbind result_bind] in Hrun. injection Hrun as <-.
  destruct (search_loop_found (lower query) limit catalog []) as (found & Hrun & Hall).
  rewrite Hrun in Hin. cbn [app] in Hin.
  rewrite List.Forall_forall in Hall. destruct (Hall coin Hin) as (Hcatalog & Hq & _).
  split; [exists catalog; split; [reflexivity | exact Hcatalog]|].
  unfold quality_ok in Hq. cbv zeta in Hq.
  apply andb_prop in Hq. destruct Hq as [Hq Hname].
  apply andb_prop in Hq. destruct Hq as [_ Hsym].
  apply negb_true_iff in Hname. apply negb_true_iff in Hsym.
  apply orb_false_elim in Hsym. destruct Hsym as [Hdot Hlen].
  split.
  - intros symbol Hs. rewrite Hs in Hdot, Hlen.
    change (default "" (Some symbol)) with symbol in Hdot, Hlen. split.
    + intros Hc. rewrite (contains_str_in_lower "." symbol eq_refl Hc) in Hdot. discriminate.
    + rewrite length_lower in Hlen. apply Nat.ltb_ge in Hlen. exact Hlen.
  - intros name kw Hn Hkw Hc. rewrite Hn in Hname.
    change (default "" (Some name)) with name in Hname.
    assert (Hlow : lower kw = kw).
    { cbn [In] in Hkw. destruct Hkw as [<-|[<-|[<-|[<-|[]]]]]; reflexivity. }
    assert (Hex : existsb (fun kw => str_in kw (lower name)) name_keywords = true).
    { apply existsb_exists. exists kw. split; [exact Hkw|].
      apply contains_str_in_lower; assumption. }
    rewrite Hex in Hname. discriminate.
Qed.

Lemma search_results_pass_filters_witness :
  search_coins (client := mock_client) "LTC" 10 = Ok [coin_entry "litecoin" "ltc" "Litecoin"]
  /\ ~ contains "." "ltc"
  /\ search_coins (client := mock_client) "wbtc" 10 = Ok []
  /\ search_coins (client := mock_client) "spam-coin-peg" 10 = Ok [].
Proof.
  assert (Hrun : search_coins (client := mock_client) "LTC" 10
                 = Ok [coin_entry "litecoin" "ltc" "Litecoin"]) by (vm_compute; reflexivity).
  split; [exact Hrun|]. split; [|split; vm_compute; reflexivity].
  destruct (search_results_pass_filters mock_client "LTC" 10 _ eq_refl Hrun
              (coin_entry "litecoin" "ltc" "Litecoin") (or_introl eq_refl))
    as (_ & Hsymbol & _).
  apply (Hsymbol "ltc"). reflexivity.
Defined.

(** C9: when the price fetch fails for exactly one of the [N] tracked coins,
    [record_prices_for_all_tracked] raises nothing and returns the [N - 1]
    snapshots of the other coins, in order, each with the fetched price. *)
Theorem record_prices_skips_failure
    (client : BaseCryptoClient) (store : DocumentStore) (w : World)
    (before after : list TrackedCoin) (failing : TrackedCoin) (e : exn) :
  objects_by_name (tracked_coins w) = before ++ failing :: after ->
  get_price (tc_coin_id failing) = Raise e ->
  (forall t, In t (before ++ after) -> is_ok (get_price (tc_coin_id t)) = true) ->
  exists prices,
    fst (record_prices_for_all_tracked w) = Ok prices
    /\ length prices = (length (before ++ failing :: after) - 1)%nat
    /\ map coin_id prices = map tc_coin_id (before ++ after)
    /\ Forall (fun s => get_price (coin_id s) = Ok (price s)) prices.
Proof.
  intros Htracked Hfail Hothers.
  unfold record_prices_for_all_tracked, mbind, M_bind, list_tracked_coins.
  rewrite Htracked.
  destruct (before ++ failing :: after) as [|t0 rest] eqn:Hcoins.
  { destruct before; discriminate. }
  rewrite <- Hcoins.
  destruct (record_loop_ok (before ++ failing :: after) [] w)
    as (snaps & w' & Hloop & Hids & Hall).
  exists snaps. rewrite Hloop.
  assert (Hkept : List.filter fetch_ok (before ++ failing :: after) = before ++ after).
  { rewrite List.filter_app. cbn [List.filter]. unfold fetch_ok at 2. rewrite Hfail.
    cbn [is_ok]. rewrite <- List.filter_app. apply filter_all. exact Hothers. }
  rewrite Hkept in Hids.
  split; [reflexivity|]. split; [|split; assumption].
  rewrite <- (length_map coin_id snaps), Hids, length_map, !length_app. simpl. lia.
Qed.

Lemma record_prices_skips_failure_witness :
  exists prices,
    fst (record_prices_for_all_tracked (client := mock_client) (store := mongo_store)
           (world_tracking [tracked "bitcoin" "btc" "Bitcoin";
                            tracked "ethereum" "eth" "Ethereum";
                            tracked "litecoin" "ltc" "Litecoin"])) = Ok prices
    /\ map coin_id prices = ["bitcoin"; "litecoin"].
Proof.
  destruct (record_prices_skips_failure mock_client mongo_store
              (world_tracking [tracked "bitcoin" "btc" "Bitcoin";
                               tracked "ethereum" "eth" "Ethereum";
                               tracked "litecoin" "ltc" "Litecoin"])
              [tracked "bitcoin" "btc" "Bitcoin"] [tracked "litecoin" "ltc" "Litecoin"]
              (tracked "ethereum" "eth" "Ethereum")
              (RuntimeError "API failed for ethereum"))
    as (prices & Hrun & _ & Hids & _).
  - reflexivity.
  - reflexivity.
  - intros t [<-|[<-|[]]]; reflexivity.
  - exists prices. split; [exact Hrun | exact Hids].
Defined.

(** C10: a successful [get_trend_analysis] never reports the volatility
    ["Unknown"]: it is one of ["Low"], ["Medium"], ["High"]. *)
Theorem trend_analysis_volatility_known
    (store : DocumentStore) (w : World) (c : string) (limit : Z) (a : TrendAnalysis) :
  fst (get_trend_analysis c limit w) = Ok a ->
  volatility a <> "Unknown"
  /\ (volatility a = "Low" \/ volatility a = "Medium" \/ volatility a = "High").
Proof.
  intros Hrun.
  destruct (Nat.lt_ge_cases (length (objects_recent (coin_prices w) c limit)) 4) as [Hlt|Hge].
  - rewrite get_trend_analysis_short in Hrun by exact Hlt. discriminate.
  - rewrite get_trend_analysis_enough in Hrun by exact Hge.
    injection Hrun as <-. cbn [volatility].
    destruct (volatility_label_known (coeff_var_of (map price (objects_recent (coin_prices w) c limit))))
      as [E|[E|E]]; rewrite E; split; auto; discriminate.
Qed.

Lemma trend_analysis_volatility_known_witness :
  exists a,
    fst (get_trend_analysis (store := mongo_store) "bitcoin" 4 (world_of [1; 2; 3; 4])) = Ok a
    /\ volatility a <> "Unknown".
Proof.
  eexists. split.
  - rewrite get_trend_analysis_enough by (simpl; lia). reflexivity.
  - eapply (trend_analysis_volatility_known mongo_store (world_of [1; 2; 3; 4]) "bitcoin" 4).
    rewrite get_trend_analysis_enough by (simpl; lia). reflexivity.
Defined.

(** * Further properties of the analytics engine *)

(** ** Extremes and the mean of a window *)

Lemma fold_left_Rmax_ge (l : list R) (x : R) :
  x <= fold_left Rmax l x /\ (forall y, In y l -> y <= fold_left Rmax l x).
Proof.
  revert x. induction l as [|z l IH]; intros x; cbn [fold_left].
  - split; [lra | intros y []].
  - destruct (IH (Rmax x z)) as [Hacc Hin]. split.
    + pose proof (Rmax_l x z). lra.
    + intros y [<-|Hy]; [|now apply Hin]. pose proof (Rmax_r x z). lra.
Qed.

Lemma fold_left_Rmax_in (l : list R) (x : R) :
  In (fold_left Rmax l x) (x :: l).
Proof.
  revert x. induction l as [|z l IH]; intros x; cbn [fold_left]; [now left|].
  destruct (IH (Rmax x z)) as [E|Hin]; [|right; now right].
  rewrite <- E. unfold Rmax. destruct (Rle_dec x z); [right; now left | now left].
Qed.

Lemma fold_left_Rmin_le (l : list R) (x : R) :
  fold_left Rmin l x <= x /\ (forall y, In y l -> fold_left Rmin l x <= y).
Proof.
  revert x. induction l as [|z l IH]; intros x; cbn [fold_left].
  - split; [lra | intros y []].
  - destruct (IH (Rmin x z)) as [Hacc Hin]. split.
    + pose proof (Rmin_l x z). lra.
    + intros y [<-|Hy]; [|now apply Hin]. pose proof (Rmin_r x z). lra.
Qed.

Lemma fold_left_Rmin_in (l : list R) (x : R) :
  In (fold_left Rmin l x) (x :: l).
Proof.
  revert x. induction l as [|z l IH]; intros x; cbn [fold_left]; [now left|].
  destruct (IH (Rmin x z)) as [E|Hin]; [|right; now right].
  rewrite <- E. unfold Rmin. destruct (Rle_dec x z); [now left | right; now left].
Qed.

Lemma sum_R_bounds (l : list R) (lo hi : R) :
  (forall p, In p l -> lo <= p <= hi) ->
  INR (length l) * lo <= sum_R l <= INR (length l) * hi.
Proof.
  induction l as [|x l IH]; intros Hb.
  - unfold sum_R. simpl. lra.
  - rewrite sum_R_cons. change (length (x :: l)) with (S (length l)). rewrite S_INR.
    destruct (Hb x (or_introl eq_refl)).
    destruct IH as [? ?]; [intros p Hp; apply Hb; now right|]. lra.
Qed.

Lemma last_in (l : list R) (d : R) : l <> [] -> In (List.last l d) l.
Proof.
  induction l as [|x [|y l] IH]; intros Hne; [congruence | now left |].
  right. apply IH. discriminate.
Qed.

(** X1: in a successful market report the high and the low are prices of the
    window, every price of the window (the open and the close among them)
    lies between them, and so does the average. *)
Theorem market_analytics_bounds
    (store : DocumentStore) (w : World) (c : string) (limit : Z) (a : MarketAnalytics) :
  fst (get_market_analytics c limit w) = Ok a ->
  let prices := map price (objects_recent (coin_prices w) c limit) in
  In (high_price a) prices
  /\ In (low_price a) prices
  /\ (forall p, In p prices -> low_price a <= p <= high_price a)
  /\ low_price a <= open_price a <= high_price a
  /\ low_price a <= close_price a <= high_price a
  /\ low_price a <= average_price a <= high_price a.
Proof.
  intros Hrun prices.
  destruct (Nat.lt_ge_cases (length (objects_recent (coin_prices w) c limit)) 2) as [Hlt|Hge].
  { rewrite get_market_analytics_short in Hrun by exact Hlt. discriminate. }
  rewrite get_market_analytics_enough in Hrun by exact Hge.
  injection Hrun as <-. cbn [high_price low_price open_price close_price average_price].
  fold prices.
  assert (Hlen : (2 <= length prices)%nat) by (subst prices; now rewrite length_map).
  destruct prices as [|p0 ps] eqn:Hp; [simpl in Hlen; lia|].
  cbn [hd tl].
  pose proof (fold_left_Rmax_ge ps p0) as [Hmax0 Hmax].
  pose proof (fold_left_Rmin_le ps p0) as [Hmin0 Hmin].
  assert (Hall : forall p, In p (p0 :: ps) ->
                   fold_left Rmin ps p0 <= p <= fold_left Rmax ps p0).
  { intros p [<-|Hin]; split; auto. }
  split; [apply fold_left_Rmax_in|]. split; [apply fold_left_Rmin_in|].
  split; [exact Hall|].
  split; [apply Hall, last_in; discriminate|].
  split; [apply Hall; now left|].
  pose proof (sum_R_bounds (p0 :: ps) _ _ Hall) as [Hlo Hhi].
  assert (Hn : 0 < INR (length (p0 :: ps))) by (apply lt_0_INR; simpl; lia).
  split.
  - apply Rmult_le_reg_l with (r := INR (length (p0 :: ps))); [exact Hn|].
    replace (INR (length (p0 :: ps)) * (sum_R (p0 :: ps) / INR (length (p0 :: ps))))
      with (sum_R (p0 :: ps)) by (field; lra).
    exact Hlo.
  - apply Rmult_le_reg_l with (r := INR (length (p0 :: ps))); [exact Hn|].
    replace (INR (length (p0 :: ps)) * (sum_R (p0 :: ps) / INR (length (p0 :: ps))))
      with (sum_R (p0 :: ps)) by (field; lra).
    exact Hhi.
Qed.

Lemma market_analytics_bounds_witness :
  exists a,
    fst (get_market_analytics (store := mongo_store) "bitcoin" 3 (world_of [5; 9; 7])) = Ok a
    /\ low_price a <= average_price a <= high_price a.
Proof.
  eexists. split.
  - rewrite get_market_analytics_enough by (simpl; lia). reflexivity.
  - eapply (market_analytics_bounds mongo_store (world_of [5; 9; 7]) "bitcoin" 3).
    rewrite get_market_analytics_enough by (simpl; lia). reflexivity.
Defined.

(** ** The two reports on one window *)

Lemma _calculate_momentum_range (net_change_percent norm_slope : R) :
  0 <= _calculate_momentum net_change_percent norm_slope <= 10.
Proof.
  unfold _calculate_momentum.
  pose proof (momentum_raw_nonneg net_change_percent norm_slope) as Hraw.
  rewrite Rmax_left by lra. unfold Rmin. destruct (Rle_dec _ _); lra.
Qed.

(** X2: whenever the trend analysis succeeds, the market analytics of the
    same coin and limit succeeds too, both reports give the same record
    count (at least 4) and the same net change, and the momentum score lies
    in [[0, 10]]. *)
Theorem trend_analysis_agrees_with_market
    (store : DocumentStore) (w : World) (c : string) (limit : Z) (ta : TrendAnalysis) :
  fst (get_trend_analysis c limit w) = Ok ta ->
  exists ma,
    fst (get_market_analytics c limit w) = Ok ma
    /\ ta_coin_id ta = ma_coin_id ma
    /\ ta_record_count ta = ma_record_count ma
    /\ (4 <= ta_record_count ta)%nat
    /\ ta_net_change_percent ta = ma_net_change_percent ma
    /\ 0 <= momentum_score ta <= 10.
Proof.
  intros Hrun.
  destruct (Nat.lt_ge_cases (length (objects_recent (coin_prices w) c limit)) 4) as [Hlt|Hge].
  { rewrite get_trend_analysis_short in Hrun by exact Hlt. discriminate. }
  rewrite get_trend_analysis_enough in Hrun by exact Hge. injection Hrun as <-.
  rewrite get_market_analytics_enough by lia.
  eexists. split; [reflexivity|].
  cbn [ta_coin_id ma_coin_id ta_record_count ma_record_count ta_net_change_percent
       ma_net_change_percent momentum_score].
  rewrite length_map.
  repeat split; try assumption; apply _calculate_momentum_range.
Qed.

Lemma trend_analysis_agrees_with_market_witness :
  exists ta ma,
    fst (get_trend_analysis (store := mongo_store) "bitcoin" 4 (world_of [1; 2; 3; 4])) = Ok ta
    /\ fst (get_market_analytics (store := mongo_store) "bitcoin" 4 (world_of [1; 2; 3; 4])) = Ok ma
    /\ ta_net_change_percent ta = ma_net_change_percent ma.
Proof.
  assert (Hta : exists ta, fst (get_trend_analysis (store := mongo_store) "bitcoin" 4
                                  (world_of [1; 2; 3; 4])) = Ok ta).
  { eexists. rewrite get_trend_analysis_enough by (simpl; lia). reflexivity. }
  destruct Hta as [ta Hta]. exists ta.
  destruct (trend_analysis_agrees_with_market mongo_store _ _ _ ta Hta)
    as (ma & Hma & _ & _ & _ & Hnc & _).
  exists ma. auto.
Defined.

(** ** Order and scale of the price sequence *)

Lemma sum_R_perm (l l' : list R) : Permutation l l' -> sum_R l = sum_R l'.
Proof.
  induction 1 as [|x l l' _ IH|x y l|l l' l'' _ IH1 _ IH2].
  - reflexivity.
  - rewrite !sum_R_cons, IH. reflexivity.
  - rewrite !sum_R_cons. lra.
  - congruence.
Qed.

Lemma coeff_var_of_perm (l l' : list R) :
  Permutation l l' -> coeff_var_of l = coeff_var_of l'.
Proof.
  intros Hp. unfold coeff_var_of, sample_stdev.
  rewrite <- (Permutation_length Hp), <- (sum_R_perm _ _ Hp).
  rewrite (sum_R_perm _ _ (Permutation_map _ Hp)). reflexivity.
Qed.

(** X3: the volatility class does not depend on the order of the prices. *)
Theorem volatility_order_independent (prices prices' : list R) :
  Permutation prices prices' ->
  _calculate_volatility prices' = _calculate_volatility prices.
Proof.
  intros Hp. pose proof (Permutation_length Hp) as Hlen.
  destruct (Nat.lt_ge_cases (length prices) 2) as [Hlt|Hge].
  - rewrite !_calculate_volatility_short by lia. reflexivity.
  - rewrite !_calculate_volatility_eq by lia. now rewrite (coeff_var_of_perm _ _ Hp).
Qed.

Lemma volatility_order_independent_witness :
  _calculate_volatility [3; 1; 2] = _calculate_volatility [1; 2; 3].
Proof.
  apply (volatility_order_independent [1; 2; 3] [3; 1; 2]).
  apply Permutation_sym, (Permutation_cons_append [1; 2] 3).
Defined.



Lemma sum_R_map_scale {A} (k : R) (f : A -> R) (l : list A) :
  sum_R (map (fun i => k * f i) l) = k * sum_R (map f l).
Proof.
  induction l as [|i l IH]; [unfold sum_R; simpl; lra|].
  cbn [map]. rewrite !sum_R_cons, IH. lra.
Qed.

Lemma sum_R_scale (k : R) (l : list R) : sum_R (map (Rmult k) l) = k * sum_R l.
Proof.
  rewrite <- (map_id l) at 2. apply (sum_R_map_scale k (fun x => x)).
Qed.

Lemma nth_scale (k : R) (l : list R) (i : nat) :
  nth i (map (Rmult k) l) 0 = k * nth i l 0.
Proof.
  revert i. induction l as [|x l IH]; intros [|i]; cbn [map nth]; try lra. apply IH.
Qed.

Lemma index_weighted_sum_scale (k : R) (l : list R) :
  index_weighted_sum (map (Rmult k) l) = k * index_weighted_sum l.
Proof.
  unfold index_weighted_sum. rewrite length_map, <- sum_R_map_scale.
  f_equal. apply map_ext. intros i. rewrite nth_scale. ring.
Qed.

Lemma ols_slope_scale (k : R) (l : list R) :
  ols_slope (map (Rmult k) l) = k * ols_slope l.
Proof.
  unfold ols_slope. cbv zeta. rewrite length_map, sum_R_scale.
  replace (sum_R (map (fun i => INR i * nth i (map (Rmult k) l) 0) (range (length l))))
    with (index_weighted_sum (map (Rmult k) l))
    by (unfold index_weighted_sum; now rewrite length_map).
  fold (index_weighted_sum l). rewrite index_weighted_sum_scale.
  destruct (_ =? 0)%Z; [lra|]. unfold Rdiv. ring.
Qed.

Lemma norm_slope_of_scale (k : R) (l : list R) :
  k <> 0 -> norm_slope_of (map (Rmult k) l) = norm_slope_of l.
Proof.
  intros Hk. unfold norm_slope_of. cbv zeta.
  rewrite length_map, sum_R_scale, ols_slope_scale.
  set (m := sum_R l / INR (length l)).
  replace (k * sum_R l / INR (length l)) with (k * m) by (unfold m, Rdiv; ring).
  destruct (Req_dec_T m 0) as [Hm|Hm]; destruct (Req_dec_T (k * m) 0) as [Hkm|Hkm].
  - reflexivity.
  - exfalso. apply Hkm. rewrite Hm. ring.
  - exfalso. destruct (Rmult_integral _ _ Hkm); contradiction.
  - field. split; assumption.
Qed.



Lemma coeff_var_of_scale (k : R) (l : list R) :
  0 < k -> coeff_var_of (map (Rmult k) l) = coeff_var_of l.
Proof.
  intros Hk. unfold coeff_var_of, sample_stdev. cbv zeta.
  rewrite length_map, sum_R_scale, map_map.
  set (m := sum_R l / INR (length l)).
  replace (k * sum_R l / INR (length l)) with (k * m) by (unfold m, Rdiv; ring).
  rewrite (map_ext (fun x => (k * x - k * m) * (k * x - k * m))
                   (fun x => (k * k) * ((x - m) * (x - m)))) by (intros; ring).
  rewrite (sum_R_map_scale (k * k) (fun x => (x - m) * (x - m))).
  replace (k * k * sum_R (map (fun x => (x - m) * (x - m)) l) / (INR (length l) - 1))
    with ((k * k) * (sum_R (map (fun x => (x - m) * (x - m)) l) / (INR (length l) - 1)))
    by (unfold Rdiv; ring).
  rewrite sqrt_mult_alt by nra. rewrite sqrt_square by lra.
  destruct (Req_dec_T m 0) as [Hm|Hm]; destruct (Req_dec_T (k * m) 0) as [Hkm|Hkm].
  - reflexivity.
  - exfalso. apply Hkm. rewrite Hm. ring.
  - exfalso. destruct (Rmult_integral _ _ Hkm); [lra | contradiction].
  - field. split; [assumption | lra].
Qed.



(** ** Flat windows *)

Lemma sum_Z_range_succ (n : nat) :
  sum_Z (map Z.of_nat (range (S n))) = (sum_Z (map Z.of_nat (range n)) + Z.of_nat n)%Z.
Proof.
  unfold range, sum_Z. rewrite seq_S, map_app, fold_left_app. reflexivity.
Qed.

Lemma repeat_snoc (x : R) (n : nat) : repeat x (S n) = repeat x n ++ [x].
Proof. induction n as [|n IH]; [reflexivity|]. cbn [repeat app] in *. now rewrite <- IH. Qed.

Lemma index_weighted_sum_repeat (x : R) (n : nat) :
  index_weighted_sum (repeat x n) = IZR (sum_Z (map Z.of_nat (range n))) * x.
Proof.
  induction n as [|n IH].
  - unfold index_weighted_sum, sum_R, sum_Z. simpl. lra.
  - rewrite repeat_snoc, index_weighted_sum_snoc, IH, repeat_length, sum_Z_range_succ.
    rewrite plus_IZR, <- INR_IZR_INZ. ring.
Qed.

Lemma norm_slope_of_repeat (x : R) (n : nat) : norm_slope_of (repeat x n) = 0.
Proof.
  assert (Hs : ols_slope (repeat x n) = 0).
  { unfold ols_slope. cbv zeta. fold (index_weighted_sum (repeat x n)).
    rewrite index_weighted_sum_repeat, repeat_length, sum_R_repeat.
    destruct (_ =? 0)%Z; [reflexivity|]. unfold Rdiv. ring. }
  unfold norm_slope_of. cbv zeta. rewrite Hs.
  destruct (Req_dec_T _ _); [reflexivity|]. unfold Rdiv. ring.
Qed.


(** ** Rising prices *)

Lemma sum_Z_squares_succ (n : nat) :
  sum_Z (map (fun i => Z.of_nat i ^ 2)%Z (range (S n)))
  = (sum_Z (map (fun i => Z.of_nat i ^ 2)%Z (range n)) + Z.of_nat n ^ 2)%Z.
Proof.
  unfold range, sum_Z. rewrite seq_S, map_app, fold_left_app. reflexivity.
Qed.

Lemma sum_squares_six (n : nat) :
  (6 * sum_Z (map (fun i => Z.of_nat i ^ 2)%Z (range n))
   = (Z.of_nat n - 1) * Z.of_nat n * (2 * Z.of_nat n - 1))%Z.
Proof.
  induction n as [|n IH]; [reflexivity|].
  rewrite sum_Z_squares_succ. nia.
Qed.

Lemma ols_denominator_nonneg (n : nat) :
  (0 <= Z.of_nat n * sum_Z (map (fun i => Z.of_nat i ^ 2)%Z (range n))
        - sum_Z (map Z.of_nat (range n)) ^ 2)%Z.
Proof.
  pose proof (sum_squares_six n) as H6. pose proof (sum_range_twice n) as H2.
  set (s2 := sum_Z (map (fun i => Z.of_nat i ^ 2)%Z (range n))) in *.
  set (s1 := sum_Z (map Z.of_nat (range n))) in *.
  set (m := Z.of_nat n) in *.
  assert (Hm : (0 <= m)%Z) by (subst m; lia).
  assert (H12 : (12 * (m * s2 - s1 ^ 2) = m * m * (m - 1) * (m + 1))%Z).
  { replace (12 * (m * s2 - s1 ^ 2))%Z with (2 * m * (6 * s2) - 3 * (2 * s1) * (2 * s1))%Z by ring.
    rewrite H6, H2. ring. }
  destruct (Z.eq_dec m 0%Z) as [E|E]; [rewrite E in H12; lia|].
  assert (0 <= m * m * (m - 1) * (m + 1))%Z by (repeat apply Z.mul_nonneg_nonneg; lia).
  lia.
Qed.

Lemma weighted_gap_bound (l : list R) (y : R) :
  (forall p, In p l -> p <= y) ->
  INR (length l) * sum_R l - index_weighted_sum l
  <= (INR (length l) * INR (length l) - IZR (sum_Z (map Z.of_nat (range (length l))))) * y.
Proof.
  induction l as [|z l IH] using rev_ind; intros Hb.
  - unfold index_weighted_sum, sum_R, sum_Z. simpl. lra.
  - rewrite index_weighted_sum_snoc, sum_R_app, length_app, Nat.add_1_r, S_INR.
    rewrite sum_Z_range_succ, plus_IZR, <- INR_IZR_INZ.
    change (sum_R [z]) with (fold_left Rplus [z] 0). cbn [fold_left].
    assert (Hz : z <= y) by (apply Hb, in_or_app; right; now left).
    assert (Hl : forall p, In p l -> p <= y) by (intros p Hp; apply Hb, in_or_app; now left).
    specialize (IH Hl).
    assert (Hs : sum_R l <= INR (length l) * y).
    { clear -Hl. induction l as [|x l IH]; [unfold sum_R; simpl; lra|].
      rewrite sum_R_cons. change (length (x :: l)) with (S (length l)). rewrite S_INR.
      pose proof (Hl x (or_introl eq_refl)).
      assert (sum_R l <= INR (length l) * y) by (apply IH; intros p Hp; apply Hl; now right).
      lra. }
    nra.
Qed.

Lemma ols_numerator_nonneg (l : list R) :
  StronglySorted Rle l ->
  0 <= INR (length l) * index_weighted_sum l
       - IZR (sum_Z (map Z.of_nat (range (length l)))) * sum_R l.
Proof.
  induction l as [|y l IH] using rev_ind; intros Hs.
  - unfold index_weighted_sum, sum_R, sum_Z. simpl. lra.
  - assert (Hl : StronglySorted Rle l) by (eapply StronglySorted_app_1_l; exact Hs).
    assert (Hb : forall p, In p l -> p <= y).
    { intros p Hp. apply (StronglySorted_app_1_elem_of Rle l [y] p y Hs).
      - now apply list_elem_of_In.
      - apply list_elem_of_In. now left. }
    specialize (IH Hl). pose proof (weighted_gap_bound l y Hb) as Hgap.
    rewrite index_weighted_sum_snoc, sum_R_app, length_app, Nat.add_1_r, S_INR.
    rewrite sum_Z_range_succ, plus_IZR, <- INR_IZR_INZ.
    change (sum_R [y]) with (fold_left Rplus [y] 0). cbn [fold_left].
    nra.
Qed.

Lemma sum_R_nonneg (l : list R) : (forall p, In p l -> 0 <= p) -> 0 <= sum_R l.
Proof.
  induction l as [|x l IH]; intros Hb; [unfold sum_R; simpl; lra|].
  rewrite sum_R_cons. pose proof (Hb x (or_introl eq_refl)).
  assert (0 <= sum_R l) by (apply IH; intros p Hp; apply Hb; now right). lra.
Qed.



(** * Further properties of the price recording *)

Section RecordingEffects.
Context {client : BaseCryptoClient} {store : DocumentStore}.

Lemma record_price_for_coin_run (c : string) (p : R) (w : World) :
  get_price c = Ok p ->
  record_price_for_coin c w =
    (Ok {| coin_id := c; price := p; timestamp := utc_now (clock_reads w) |},
     {| coin_prices := coin_prices w
                       ++ [ {| coin_id := c; price := p; timestamp := utc_now (clock_reads w) |} ];
        tracked_coins := tracked_coins w;
        clock_reads := S (clock_reads w);
        history_queries := history_queries w |}).
Proof.
  intros Hp. unfold record_price_for_coin, mbind, M_bind, lift. rewrite Hp. reflexivity.
Qed.

Lemma record_loop_effect (coins : list TrackedCoin) :
  forall (acc : list CoinPrice) (w : World),
  exists snaps w',
    record_loop coins acc w = (Ok (acc ++ snaps), w')
    /\ map coin_id snaps = map tc_coin_id (List.filter fetch_ok coins)
    /\ Forall (fun s => get_price (coin_id s) = Ok (price s)) snaps
    /\ map timestamp snaps = map utc_now (seq (clock_reads w) (length snaps))
    /\ coin_prices w' = coin_prices w ++ snaps
    /\ tracked_coins w' = tracked_coins w
    /\ clock_reads w' = (clock_reads w + length snaps)%nat
    /\ history_queries w' = history_queries w.
Proof.
  induction coins as [|t rest IH]; intros acc w.
  - exists [], w. rewrite !app_nil_r, Nat.add_0_r. repeat split; constructor.
  - cbn [record_loop List.filter]. unfold fetch_ok at 1.
    unfold mbind at 1, M_bind at 1, try_except.
    unfold mbind at 1, M_bind at 1.
    destruct (get_price (tc_coin_id t)) as [p|e] eqn:Hp.
    + rewrite (record_price_for_coin_run _ _ w Hp). cbn [mret M_ret is_ok].
      match goal with
      | |- context [record_loop rest ?acc' ?w1] =>
          destruct (IH acc' w1) as (snaps & w' & Hloop & Hids & Hall & Hts & Hdb & Htr & Hck & Hq)
      end.
      cbn [coin_prices tracked_coins clock_reads history_queries] in Hts, Hdb, Htr, Hck, Hq.
      eexists (_ :: snaps), w'. rewrite Hloop, <- app_assoc.
      split; [reflexivity|]. split; [simpl; now rewrite Hids|].
      split; [constructor; [exact Hp | exact Hall]|].
      split; [cbn [map length seq timestamp]; now rewrite Hts|].
      split; [rewrite Hdb, <- app_assoc; reflexivity|].
      split; [exact Htr|]. split; [rewrite Hck; simpl; lia | exact Hq].
    + rewrite (record_price_for_coin_fail _ _ w Hp). cbn [mret M_ret is_ok].
      destruct (IH acc w) as (snaps & w' & H). exists snaps, w'. exact H.
Qed.

End RecordingEffects.


(** * Further properties of the catalog search *)

Lemma search_loop_firstn (query : string) (limit : Z) (all_coins : list dict) :
  forall results : list dict,
  (length results < Z.to_nat (Z.max limit 1))%nat ->
  search_loop query limit all_coins results
  = results ++ firstn (Z.to_nat (Z.max limit 1) - length results)
                 (List.filter (fun coin => quality_ok coin && query_matches query coin)
                              all_coins).
Proof.
  set (k := Z.to_nat (Z.max limit 1)).
  induction all_coins as [|coin rest IH]; intros results Hlen.
  - cbn [search_loop List.filter]. now rewrite firstn_nil, app_nil_r.
  - cbn [search_loop List.filter]. unfold quality_ok, query_matches. cbv zeta.
    destruct (forallb str_truthy _) eqn:Htruthy; cbn [negb andb]; [|now apply IH].
    destruct (str_in "." _ || _) eqn:Hsym; cbn [negb andb]; [now apply IH|].
    destruct (existsb (fun kw => str_in kw _) name_keywords) eqn:Hkw;
      cbn [negb andb]; [now apply IH|].
    destruct (existsb (String.eqb query) _) eqn:Hmatch; [|now apply IH].
    rewrite length_app. cbn [length].
    destruct (Z.leb_spec limit (Z.of_nat (length results + 1))) as [Hle|Hgt].
    + replace (k - length results)%nat with 1%nat by (subst k; lia).
      reflexivity.
    + rewrite IH by (rewrite length_app; cbn [length]; subst k; lia).
      rewrite length_app. cbn [length]. rewrite <- app_assoc. cbn [app].
      replace (k - length results)%nat with (S (k - (length results + 1)))
        by (subst k; lia).
      reflexivity.
Qed.

(** X10: on a query that misses the priority table, [search_coins] returns
    the catalog entries that pass the quality filters and match the
    lower-cased query, in catalog order, cut to the first [limit] of them;
    with a limit of 0 or less it still returns the first one. *)
Theorem search_miss_result
    (client : BaseCryptoClient) (query : string) (limit : Z) (catalog : list dict) :
  MAJOR_COINS !! lower query = None ->
  get_supported_coins_with_details = Ok catalog ->
  search_coins query limit
  = Ok (firstn (Z.to_nat (Z.max limit 1))
          (List.filter (fun coin => quality_ok coin && query_matches (lower query) coin)
                       catalog)).
Proof.
  intros Hmiss Hcat. unfold search_coins. cbv zeta. rewrite Hmiss, Hcat.
  cbn [mbind result_bind]. f_equal.
  rewrite search_loop_firstn by (cbn [length]; lia).
  cbn [app length]. now rewrite Nat.sub_0_r.
Qed.

Lemma search_miss_result_witness :
  search_coins (client := mock_client) "litecoin" 0
  = Ok [coin_entry "litecoin" "ltc" "Litecoin"].
Proof.
  rewrite (search_miss_result mock_client "litecoin" 0 MOCK_COINS_LIST eq_refl eq_refl).
  vm_compute. reflexivity.
Defined.

Lemma MAJOR_COINS_keys (key : string) (entry : dict) :
  MAJOR_COINS !! key = Some entry ->
  (entry !! "id" = Some key \/ entry !! "symbol" = Some key)
  /\ MAJOR_COINS !! default "" (entry !! "id") = Some entry
  /\ MAJOR_COINS !! default "" (entry !! "symbol") = Some entry.
Proof.
  intros Hk. unfold MAJOR_COINS in Hk.
  apply elem_of_list_to_map_2 in Hk.
  repeat (apply elem_of_cons in Hk; destruct Hk as [Hk|Hk];
          [injection Hk as -> ->; split; [|split];
           solve [ left; reflexivity | right; reflexivity | vm_compute; reflexivity ] |]).
  apply elem_of_nil in Hk. destruct Hk.
Qed.

(** X11: when the lower-cased query is a key of the priority table the
    search returns exactly one entry, for every limit and without asking
    the client; the key is the id or the symbol of that entry, and searching
    for the id or for the symbol of the entry returns the same entry. *)
Theorem search_priority_hit
    (client : BaseCryptoClient) (query : string) (limit : Z) (entry : dict) :
  MAJOR_COINS !! lower query = Some entry ->
  search_coins query limit = Ok [entry]
  /\ (entry !! "id" = Some (lower query) \/ entry !! "symbol" = Some (lower query))
  /\ (forall id limit', entry !! "id" = Some id -> search_coins id limit' = Ok [entry])
  /\ (forall symbol limit', entry !! "symbol" = Some symbol ->
        search_coins symbol limit' = Ok [entry]).
Proof.
  intros Hhit. destruct (MAJOR_COINS_keys _ _ Hhit) as (Hkey & Hid & Hsym).
  split; [unfold search_coins; cbv zeta; now rewrite Hhit|].
  split; [exact Hkey|].
  assert (Hlow : forall key, MAJOR_COINS !! key = Some entry -> lower key = key).
  { intros key Hk. unfold MAJOR_COINS in Hk. apply elem_of_list_to_map_2 in Hk.
    repeat (apply elem_of_cons in Hk; destruct Hk as [Hk|Hk];
            [injection Hk as -> _; reflexivity|]).
    apply elem_of_nil in Hk. destruct Hk. }
  split.
  - intros id limit' E. rewrite E in Hid.
    change (default "" (Some id)) with id in Hid.
    unfold search_coins. cbv zeta. now rewrite (Hlow _ Hid), Hid.
  - intros symbol limit' E. rewrite E in Hsym.
    change (default "" (Some symbol)) with symbol in Hsym.
    unfold search_coins. cbv zeta. now rewrite (Hlow _ Hsym), Hsym.
Qed.

Lemma search_priority_hit_witness :
  search_coins (client := mock_client) "Doge" 0 = Ok [coin_entry "dogecoin" "doge" "Dogecoin"].
Proof.
  destruct (search_priority_hit mock_client "Doge" 0
              (coin_entry "dogecoin" "doge" "Dogecoin")) as [Hrun _].
  - vm_compute. reflexivity.
  - exact Hrun.
Defined.

(** * The symbol table of the client *)

Lemma lower_ascii_idempotent (c : ascii) : lower_ascii (lower_ascii c) = lower_ascii c.
Proof. destruct c as [[] [] [] [] [] [] [] []]; reflexivity. Qed.

Lemma lower_idempotent (s : string) : lower (lower s) = lower s.
Proof.
  induction s as [|c s IH]; [reflexivity|].
  cbn [lower]. now rewrite lower_ascii_idempotent, IH.
Qed.

Lemma supported_loop_step (coin : dict) (rest : list dict) (m : gmap string string) :
  supported_loop (coin :: rest) m =
    match symbol_entry coin with
    | Some (k, id) => supported_loop rest (<[k := id]> m)
    | None => supported_loop rest m
    end.
Proof.
  cbn [supported_loop]. unfold symbol_entry.
  destruct (get_truthy coin "id"), (get_truthy coin "symbol"); reflexivity.
Qed.

Lemma supported_loop_app (l1 l2 : list dict) (m : gmap string string) :
  supported_loop (l1 ++ l2) m = supported_loop l2 (supported_loop l1 m).
Proof.
  revert m. induction l1 as [|coin l1 IH]; intros m; [reflexivity|].
  cbn [app]. rewrite !supported_loop_step. destruct (symbol_entry coin) as [[k id]|]; apply IH.
Qed.

Lemma supported_loop_miss (coins : list dict) (k : string) :
  (forall coin id, In coin coins -> symbol_entry coin <> Some (k, id)) ->
  forall m : gmap string string, supported_loop coins m !! k = m !! k.
Proof.
  induction coins as [|coin rest IH]; intros Hmiss m; [reflexivity|].
  rewrite supported_loop_step.
  assert (Hrest : forall c id, In c rest -> symbol_entry c <> Some (k, id))
    by (intros c id Hc; apply Hmiss; now right).
  destruct (symbol_entry coin) as [[k' id]|] eqn:He; [|now apply IH].
  rewrite (IH Hrest). apply lookup_insert_ne. intros ->.
  apply (Hmiss coin id (or_introl eq_refl)). exact He.
Qed.

Lemma supported_loop_sound (coins : list dict) (k id : string) :
  forall m : gmap string string,
  supported_loop coins m !! k = Some id ->
  m !! k = Some id \/ exists coin, In coin coins /\ symbol_entry coin = Some (k, id).
Proof.
  induction coins as [|coin rest IH]; intros m Hk; [now left|].
  rewrite supported_loop_step in Hk.
  destruct (symbol_entry coin) as [[k' id']|] eqn:He.
  - destruct (IH _ Hk) as [Hm|(c & Hc & Hs)].
    + destruct (decide (k' = k)) as [->|Hne].
      * rewrite lookup_insert_eq in Hm. injection Hm as ->.
        right. exists coin. split; [now left | exact He].
      * rewrite lookup_insert_ne in Hm by exact Hne. now left.
    + right. exists c. split; [now right | exact Hs].
  - destruct (IH _ Hk) as [Hm|(c & Hc & Hs)]; [now left|].
    right. exists c. split; [now right | exact Hs].
Qed.

Lemma symbol_entry_fields (coin : dict) (k id : string) :
  symbol_entry coin = Some (k, id) ->
  coin !! "id" = Some id /\ id <> ""
  /\ exists symbol, coin !! "symbol" = Some symbol /\ symbol <> "" /\ lower symbol = k.
Proof.
  unfold symbol_entry, get_truthy.
  destruct (coin !! "id") as [i|]; [|discriminate].
  destruct (coin !! "symbol") as [s|]; [|destruct (str_truthy i); discriminate].
  destruct i as [|c i]; [discriminate|]. destruct s as [|c' s]; [discriminate|].
  cbn. intros [= <- <-].
  split; [reflexivity|]. split; [discriminate|].
  eexists. split; [reflexivity|]. split; [discriminate | reflexivity].
Qed.

(** X12: in the mapping [get_supported_coins] builds, every key is the
    lower-cased non-empty symbol of a catalog entry whose non-empty id is the
    value; a symbol no usable entry carries is absent; and when several
    entries share a symbol the last one in the catalog wins. *)
Theorem supported_coins_mapping
    (client : BaseCryptoClient) (catalog : list dict) (m : gmap string string) :
  get_supported_coins_with_details = Ok catalog ->
  get_supported_coins = Ok m ->
  (forall k id, m !! k = Some id ->
     lower k = k /\ id <> ""
     /\ exists coin symbol,
          In coin catalog /\ coin !! "id" = Some id
          /\ coin !! "symbol" = Some symbol /\ symbol <> "" /\ lower symbol = k)
  /\ (forall k, (forall coin id, In coin catalog -> symbol_entry coin <> Some (k, id)) ->
        m !! k = None)
  /\ (forall before coin after k id,
        catalog = before ++ coin :: after ->
        symbol_entry coin = Some (k, id) ->
        (forall c id', In c after -> symbol_entry c <> Some (k, id')) ->
        m !! k = Some id).
Proof.
  intros Hcat Hrun. unfold get_supported_coins in Hrun. rewrite Hcat in Hrun.
  cbn [mbind result_bind] in Hrun. injection Hrun as <-.
  split; [|split].
  - intros k id Hk.
    destruct (supported_loop_sound _ _ _ _ Hk) as [He|(coin & Hin & He)].
    { rewrite lookup_empty in He. discriminate. }
    destruct (symbol_entry_fields _ _ _ He) as (Hid & Hne & symbol & Hs & Hsne & <-).
    split; [apply lower_idempotent|]. split; [exact Hne|].
    exists coin, symbol. auto.
  - intros k Hmiss. rewrite (supported_loop_miss _ _ Hmiss). apply lookup_empty.
  - intros before coin after k id -> He Hafter.
    rewrite supported_loop_app, supported_loop_step, He.
    rewrite (supported_loop_miss _ _ Hafter). apply lookup_insert_eq.
Qed.

Lemma supported_coins_mapping_witness :
  exists m, get_supported_coins (client := mock_client) = Ok m /\ m !! "xrp" = Some "ripple".
Proof.
  eexists. split; [reflexivity|].
  eapply (supported_coins_mapping mock_client MOCK_COINS_LIST _ eq_refl eq_refl).
  - change MOCK_COINS_LIST
      with ([coin_entry "bitcoin" "btc" "Bitcoin"; coin_entry "ethereum" "eth" "Ethereum"]
            ++ coin_entry "ripple" "xrp" "XRP"
            :: [coin_entry "spam-coin-peg" "spam.x" "SpamCoin";
                coin_entry "wbtc" "wbtc" "Wrapped Bitcoin";
                coin_entry "litecoin" "ltc" "Litecoin"]).
    reflexivity.
  - vm_compute. reflexivity.
  - intros c id' Hc. cbn [In] in Hc.
    destruct Hc as [<-|[<-|[<-|[]]]]; vm_compute; discriminate.
Defined.

(** * The tracked coins *)

Lemma world_eta (w : World) :
  {| coin_prices := coin_prices w; tracked_coins := tracked_coins w;
     clock_reads := clock_reads w; history_queries := history_queries w |} = w.
Proof. destruct w; reflexivity. Qed.

Lemma filter_has_id_nil (c : string) (l : list TrackedCoin) :
  List.filter (has_id c) l = [] <-> (forall d, In d l -> tc_coin_id d <> c).
Proof.
  unfold has_id. induction l as [|x l IH]; cbn [List.filter].
  - split; [intros _ d [] | reflexivity].
  - destruct (String.eqb_spec (tc_coin_id x) c) as [E|E].
    + split; [discriminate|]. intros H. exfalso. apply (H x); [now left | exact E].
    + rewrite IH. split.
      * intros H d [<-|Hd]; [exact E | now apply H].
      * intros H d Hd. apply H. now right.
Qed.

Lemma not_tracked_filter (c : string) (w : World) :
  ~ is_tracked c w <-> List.filter (has_id c) (tracked_coins w) = [].
Proof.
  rewrite filter_has_id_nil. unfold is_tracked. split.
  - intros H d Hd E. apply H. exists d. auto.
  - intros H (d & Hd & E). exact (H d Hd E).
Qed.

Lemma filter_others_id (c : string) (l : list TrackedCoin) :
  (forall d, In d l -> tc_coin_id d <> c) ->
  List.filter (fun d => negb (has_id c d)) l = l.
Proof.
  intros H. induction l as [|x l IH]; [reflexivity|]. cbn [List.filter]. unfold has_id at 1.
  destruct (String.eqb_spec (tc_coin_id x) c) as [E|E].
  - exfalso. apply (H x); [now left | exact E].
  - cbn [negb]. f_equal. apply IH. intros d Hd. apply H. now right.
Qed.

Section TrackedCoinFacts.
Context {validation : TrackedCoinValidation}.

(** X13: adding a coin whose id is already tracked raises a [ValueError] and
    changes nothing; otherwise a successful add appends one active entry
    with the symbol lower-cased, after which the id is tracked and a second
    add of the same id, with any symbol and name, is refused. *)
Theorem add_tracked_coin_once (c symbol name : string) (w : World) :
  (is_tracked c w ->
     add_tracked_coin c symbol name w
     = (Raise (ValueError ("Coin with id='" +:+ c +:+ "' is already tracked.")), w))
  /\ (forall d w', add_tracked_coin c symbol name w = (Ok d, w') ->
        ~ is_tracked c w
        /\ d = {| tc_coin_id := c; tc_symbol := lower symbol;
                  tc_name := name; tc_is_active := true |}
        /\ tracked_coins w' = tracked_coins w ++ [d]
        /\ coin_prices w' = coin_prices w
        /\ is_tracked c w'
        /\ forall symbol' name',
             add_tracked_coin c symbol' name' w'
             = (Raise (ValueError ("Coin with id='" +:+ c +:+ "' is already tracked.")), w')).
Proof.
  assert (Hdup : forall s n w0, is_tracked c w0 ->
            add_tracked_coin c s n w0
            = (Raise (ValueError ("Coin with id='" +:+ c +:+ "' is already tracked.")), w0)).
  { intros s n w0 Ht. unfold add_tracked_coin.
    destruct (List.filter (has_id c) (tracked_coins w0)) eqn:Hf; [|reflexivity].
    exfalso. apply not_tracked_filter in Hf. contradiction. }
  split; [apply Hdup|].
  intros d w' Hrun. unfold add_tracked_coin in Hrun.
  destruct (List.filter (has_id c) (tracked_coins w)) eqn:Hf; [|discriminate].
  destruct (validation_error _); [discriminate|]. injection Hrun as <- <-.
  assert (Ht : is_tracked c
                 {| coin_prices := coin_prices w;
                    tracked_coins := tracked_coins w
                      ++ [{| tc_coin_id := c; tc_symbol := lower symbol;
                             tc_name := name; tc_is_active := true |}];
                    clock_reads := clock_reads w;
                    history_queries := history_queries w |}).
  { eexists. split; [apply in_or_app; right; now left | reflexivity]. }
  split; [now apply not_tracked_filter|].
  repeat split; try exact Ht. intros s n. now apply Hdup.
Qed.

(** X14: deleting a coin that is not tracked raises a [ValueError] and
    changes nothing, whether or not its prices were to be deleted too. *)
Theorem delete_untracked_coin (c : string) (delete_prices : bool) (w : World) :
  ~ is_tracked c w ->
  delete_tracked_coin c delete_prices w
  = (Raise (ValueError ("Tracked coin with id='" +:+ c +:+ "' not found.")), w).
Proof.
  intros Hn. apply not_tracked_filter in Hn. unfold delete_tracked_coin. cbv zeta.
  rewrite Hn. cbn [length Nat.eqb].
  rewrite filter_others_id by (now apply filter_has_id_nil).
  now rewrite world_eta.
Qed.

(** X15: deleting a tracked coin succeeds; afterwards the id is not tracked,
    the other tracked coins are kept in order, and the prices are kept as
    they are unless their deletion was asked for, in which case exactly the
    prices of the other coins are kept. *)
Theorem delete_tracked_coin_effect (c : string) (delete_prices : bool) (w : World) :
  is_tracked c w ->
  exists w',
    delete_tracked_coin c delete_prices w = (Ok tt, w')
    /\ ~ is_tracked c w'
    /\ tracked_coins w'
       = List.filter (fun d => negb (String.eqb (tc_coin_id d) c)) (tracked_coins w)
    /\ coin_prices w'
       = (if delete_prices
          then List.filter (fun p => negb (String.eqb (coin_id p) c)) (coin_prices w)
          else coin_prices w)
    /\ clock_reads w' = clock_reads w
    /\ history_queries w' = history_queries w.
Proof.
  intros Ht. unfold delete_tracked_coin. cbv zeta.
  destruct (List.filter (has_id c) (tracked_coins w)) eqn:Hf.
  { exfalso. apply not_tracked_filter in Hf. contradiction. }
  cbn [length Nat.eqb].
  assert (Hgone : forall w', tracked_coins w'
                    = List.filter (fun d => negb (has_id c d)) (tracked_coins w) ->
                  ~ is_tracked c w').
  { intros w' E (d & Hd & Hid). rewrite E in Hd. apply filter_In in Hd.
    destruct Hd as [_ Hd]. unfold has_id in Hd. rewrite <- Hid, String.eqb_refl in Hd.
    discriminate. }
  destruct delete_prices; eexists; (split; [reflexivity|]);
    (split; [apply Hgone; reflexivity|]); repeat split.
Qed.

(** X16: when the ids of the tracked coins are pairwise distinct they remain
    so after an add and after a delete, whatever their outcome. *)
Theorem tracked_ids_stay_distinct (c symbol name : string) (delete_prices : bool) (w : World) :
  NoDup (map tc_coin_id (tracked_coins w)) ->
  NoDup (map tc_coin_id (tracked_coins (snd (add_tracked_coin c symbol name w))))
  /\ NoDup (map tc_coin_id (tracked_coins (snd (delete_tracked_coin c delete_prices w)))).
Proof.
  intros Hnd. split.
  - unfold add_tracked_coin.
    destruct (List.filter (has_id c) (tracked_coins w)) eqn:Hf; [|exact Hnd].
    destruct (validation_error _); [exact Hnd|].
    cbn [snd tracked_coins]. rewrite map_app. cbn [map tc_coin_id].
    apply NoDup_app. split; [exact Hnd|]. split; [|apply NoDup_singleton].
    intros x Hx Hc. apply list_elem_of_In in Hx. apply list_elem_of_singleton in Hc. subst x.
    apply in_map_iff in Hx. destruct Hx as (d & Hid & Hd).
    rewrite filter_has_id_nil in Hf. exact (Hf d Hd Hid).
  - assert (Hsub : NoDup (map tc_coin_id
                     (List.filter (fun d => negb (has_id c d)) (tracked_coins w)))).
    { clear -Hnd. induction (tracked_coins w) as [|x l IH]; [constructor|].
      cbn [map] in Hnd. apply NoDup_cons in Hnd. destruct Hnd as [Hx Hl].
      cbn [List.filter]. destruct (negb (has_id c x)); [|now apply IH].
      cbn [map]. apply NoDup_cons. split; [|now apply IH].
      intros Hin. apply Hx. apply list_elem_of_In in Hin. apply list_elem_of_In.
      apply in_map_iff in Hin. destruct Hin as (d & Hid & Hd).
      apply in_map_iff. exists d. split; [exact Hid|]. apply filter_In in Hd. tauto. }
    unfold delete_tracked_coin. cbv zeta.
    destruct (_ =? 0)%nat; [exact Hsub|]. destruct delete_prices; exact Hsub.
Qed.

(** X17: adding a coin that was not tracked and deleting it again, keeping
    the prices, gives back the world as it was. *)
Theorem add_then_delete (c symbol name : string) (w w' : World) (d : TrackedCoin) :
  add_tracked_coin c symbol name w = (Ok d, w') ->
  delete_tracked_coin c false w' = (Ok tt, w).
Proof.
  intros Hadd. unfold add_tracked_coin in Hadd.
  destruct (List.filter (has_id c) (tracked_coins w)) eqn:Hf; [|discriminate].
  destruct (validation_error _); [discriminate|]. injection Hadd as <- <-.
  unfold delete_tracked_coin. cbv zeta. cbn [tracked_coins coin_prices clock_reads history_queries].
  rewrite !List.filter_app, Hf. cbn [List.filter app]. unfold has_id at 1 2.
  cbn [tc_coin_id]. rewrite String.eqb_refl. cbn [negb length Nat.eqb app].
  unfold has_id at 2. cbn [tc_coin_id]. rewrite String.eqb_refl. cbn [negb].
  rewrite filter_others_id by (now apply filter_has_id_nil).
  rewrite app_nil_r. now rewrite world_eta.
Qed.

End TrackedCoinFacts.

Lemma add_tracked_coin_once_witness :
  add_tracked_coin (validation := accept_all) "bitcoin" "BTC" "Bitcoin"
    (world_tracking [tracked "bitcoin" "btc" "Bitcoin"])
  = (Raise (ValueError "Coin with id='bitcoin' is already tracked."),
     world_tracking [tracked "bitcoin" "btc" "Bitcoin"]).
Proof.
  apply (add_tracked_coin_once (validation := accept_all) "bitcoin" "BTC" "Bitcoin"
           (world_tracking [tracked "bitcoin" "btc" "Bitcoin"])).
  exists (tracked "bitcoin" "btc" "Bitcoin"). split; [now left | reflexivity].
Defined.

Lemma delete_untracked_coin_witness :
  delete_tracked_coin "dogecoin" true (world_of [1; 2])
  = (Raise (ValueError "Tracked coin with id='dogecoin' not found."), world_of [1; 2]).
Proof.
  apply (delete_untracked_coin "dogecoin" true (world_of [1; 2])).
  intros (d & [] & _).
Defined.

Lemma delete_tracked_coin_effect_witness :
  exists w',
    delete_tracked_coin "bitcoin" false
      (world_tracking [tracked "bitcoin" "btc" "Bitcoin"; tracked "ethereum" "eth" "Ethereum"])
    = (Ok tt, w')
    /\ tracked_coins w' = [tracked "ethereum" "eth" "Ethereum"].
Proof.
  destruct (delete_tracked_coin_effect "bitcoin" false
              (world_tracking [tracked "bitcoin" "btc" "Bitcoin";
                               tracked "ethereum" "eth" "Ethereum"]))
    as (w' & Hrun & _ & Htracked & _).
  - exists (tracked "bitcoin" "btc" "Bitcoin"). split; [now left | reflexivity].
  - exists w'. split; [exact Hrun | exact Htracked].
Defined.

Lemma tracked_ids_stay_distinct_witness :
  NoDup (map tc_coin_id (tracked_coins (snd (add_tracked_coin (validation := accept_all)
           "ethereum" "ETH" "Ethereum" (world_tracking [tracked "bitcoin" "btc" "Bitcoin"]))))).
Proof.
  apply (tracked_ids_stay_distinct (validation := accept_all) "ethereum" "ETH" "Ethereum" false
           (world_tracking [tracked "bitcoin" "btc" "Bitcoin"])).
  apply NoDup_singleton.
Defined.

Lemma add_then_delete_witness :
  delete_tracked_coin "bitcoin" false
    (world_tracking [tracked "bitcoin" "btc" "Bitcoin"])
  = (Ok tt, world_tracking []).
Proof.
  apply (add_then_delete (validation := accept_all) "bitcoin" "BTC" "Bitcoin"
           (world_tracking []) _ (tracked "bitcoin" "btc" "Bitcoin")).
  reflexivity.
Defined.

(** * The command line *)

Section HandlerFacts.
Context {builtins : StrBuiltins} {store : DocumentStore}.

Lemma get_market_analytics_world (w : World) (c : string) (limit : Z) :
  snd (get_market_analytics c limit w) = queried w c limit.
Proof.
  destruct (Nat.lt_ge_cases (length (objects_recent (coin_prices w) c limit)) 2).
  - now rewrite get_market_analytics_short.
  - now rewrite get_market_analytics_enough.
Qed.

Lemma get_trend_analysis_world (w : World) (c : string) (limit : Z) :
  snd (get_trend_analysis c limit w) = queried w c limit.
Proof.
  destruct (Nat.lt_ge_cases (length (objects_recent (coin_prices w) c limit)) 4).
  - now rewrite get_trend_analysis_short.
  - now rewrite get_trend_analysis_enough.
Qed.

Lemma read_limit_above (floor : Z) (lines rest : list string) (n : Z) :
  read_limit floor lines = (Returned n, rest) -> (floor < n)%Z.
Proof.
  induction lines as [|line lines IH]; cbn [read_limit]; [discriminate|].
  destruct (isdigit _); [|exact IH].
  destruct (py_int _) as [m|]; [|discriminate].
  destruct (Z.ltb_spec floor m) as [Hlt|_]; [|exact IH].
  intros [= <- _]. exact Hlt.
Qed.

(** X18: whatever is typed, the market handler queries the store at most
    once, with a non-empty lower-cased coin id and a limit of at least 2, and
    the trend handler with a limit of at least 4; a run that ends before the
    query leaves the world as it was. *)
Theorem handlers_query_with_valid_limit (lines : list string) (w : World) :
  (snd (handle_market_analytics lines w) = w
   \/ exists c limit, snd (handle_market_analytics lines w) = queried w c limit
                      /\ (2 <= limit)%Z /\ c <> "" /\ lower c = c)
  /\ (snd (handle_trend_analysis lines w) = w
      \/ exists c limit, snd (handle_trend_analysis lines w) = queried w c limit
                         /\ (4 <= limit)%Z /\ c <> "" /\ lower c = c).
Proof.
  split.
  - unfold handle_market_analytics, mbind, Cli_bind, input.
    destruct lines as [|line rest]; [now left|].
    destruct (str_truthy (lower (strip line))) eqn:Hc; cbn [negb]; [|now left].
    unfold reading. destruct (read_limit 1 rest) as [[limit|e| |k] rest'] eqn:Hl;
      try (now left).
    apply read_limit_above in Hl.
    pose proof (get_market_analytics_world w (lower (strip line)) limit) as Hw.
    unfold call.
    destruct (get_market_analytics (lower (strip line)) limit w) as [[a|e] w'];
      cbn [snd] in *; right; exists (lower (strip line)), limit;
      (split; [exact Hw|]); (split; [lia|]);
      (split; [intros E; rewrite E in Hc; discriminate | apply lower_idempotent]).
  - unfold handle_trend_analysis, mbind, Cli_bind, input.
    destruct lines as [|line rest]; [now left|].
    destruct (str_truthy (lower (strip line))) eqn:Hc; cbn [negb]; [|now left].
    unfold reading. destruct (read_limit 3 rest) as [[limit|e| |k] rest'] eqn:Hl;
      try (now left).
    apply read_limit_above in Hl.
    pose proof (get_trend_analysis_world w (lower (strip line)) limit) as Hw.
    unfold call.
    destruct (get_trend_analysis (lower (strip line)) limit w) as [[a|e] w'];
      cbn [snd] in *; right; exists (lower (strip line)), limit;
      (split; [exact Hw|]); (split; [lia|]);
      (split; [intros E; rewrite E in Hc; discriminate | apply lower_idempotent]).
Qed.

End HandlerFacts.

Lemma handle_market_analytics_example :
  snd (handle_market_analytics (builtins := digit_builtins) (store := mongo_store)
         ["Bitcoin"; "1"; "many"; ""; "7"] (world_of [1; 2; 3]))
  = queried (world_of [1; 2; 3]) "bitcoin" 10
  /\ snd (fst (handle_market_analytics (builtins := digit_builtins) (store := mongo_store)
                 ["Bitcoin"; "1"; "many"; ""; "7"] (world_of [1; 2; 3])))
     = ["7"].
Proof.
  unfold handle_market_analytics, mbind, Cli_bind, input.
  change (lower (strip "Bitcoin")) with "bitcoin". cbn [str_truthy negb].
  unfold reading.
  change (read_limit 1 ["1"; "many"; ""; "7"]) with (@Returned Z 10%Z, ["7"]).
  cbv iota beta. unfold call.
  rewrite (surjective_pairing (get_market_analytics "bitcoin" 10 (world_of [1; 2; 3]))).
  rewrite get_market_analytics_world.
  rewrite get_market_analytics_enough by (simpl; lia).
  split; reflexivity.
Qed.

Lemma truthy_lower_default (m : dict) (key : string) :
  str_truthy (lower (default "" (m !! key))) = true -> exists v, m !! key = Some v.
Proof. destruct (m !! key) as [v|]; [eauto | discriminate]. Qed.

Lemma quality_ok_fields (m : dict) : quality_ok m = true -> has_fields m.
Proof.
  unfold quality_ok. cbv zeta. intros H.
  apply andb_prop in H. destruct H as [H _]. apply andb_prop in H. destruct H as [H _].
  cbn [forallb] in H.
  apply andb_prop in H. destruct H as [Hs H]. apply andb_prop in H. destruct H as [Hi H].
  apply andb_prop in H. destruct H as [Hn _].
  destruct (truthy_lower_default _ _ Hs) as [s Es].
  destruct (truthy_lower_default _ _ Hi) as [i Ei].
  destruct (truthy_lower_default _ _ Hn) as [n En].
  exists i, s, n. auto.
Qed.

Lemma MAJOR_COINS_fields (key : string) (entry : dict) :
  MAJOR_COINS !! key = Some entry -> has_fields entry.
Proof.
  intros Hk. unfold MAJOR_COINS in Hk. apply elem_of_list_to_map_2 in Hk.
  repeat (apply elem_of_cons in Hk; destruct Hk as [Hk|Hk];
          [injection Hk as _ ->; do 3 eexists; repeat split; reflexivity|]).
  apply elem_of_nil in Hk. destruct Hk.
Qed.

Lemma search_results_have_fields
    (client : BaseCryptoClient) (query : string) (limit : Z) (matches : list dict) :
  search_coins query limit = Ok matches -> forall m, In m matches -> has_fields m.
Proof.
  unfold search_coins. cbv zeta.
  destruct (MAJOR_COINS !! lower query) as [entry|] eqn:Hhit.
  - intros [= <-] m [<-|[]]. exact (MAJOR_COINS_fields _ _ Hhit).
  - destruct get_supported_coins_with_details as [catalog|e]; [|discriminate].
    cbn [mbind result_bind]. intros [= <-] m Hm.
    destruct (search_loop_found (lower query) limit catalog []) as (found & Hrun & Hall).
    rewrite Hrun in Hm. cbn [app] in Hm. rewrite List.Forall_forall in Hall.
    apply quality_ok_fields. apply (Hall m Hm).
Qed.

Lemma print_matches_ok (matches : list dict) :
  (forall m, In m matches -> has_fields m) -> print_matches matches = Returned tt.
Proof.
  induction matches as [|m rest IH]; intros H; [reflexivity|].
  destruct (H m (or_introl eq_refl)) as (i & s & n & Ei & Es & En).
  cbn [print_matches]. unfold dict_getitem. rewrite En, Es. cbn [mbind cli_result_bind].
  apply IH. intros m' Hm'. apply H. now right.
Qed.

Lemma list_getitem_in_range {A} (l : list A) (i : Z) :
  (0 <= i < Z.of_nat (length l))%Z -> exists x, list_getitem l i = Returned x /\ In x l.
Proof.
  intros Hi. unfold list_getitem. cbv zeta.
  destruct (Z.ltb_spec i 0) as [|_]; [lia|].
  destruct (Z.leb_spec 0 i) as [_|]; [|lia].
  destruct (Z.ltb_spec i (Z.of_nat (length l))) as [_|]; [|lia]. cbn [andb].
  destruct (nth_error l (Z.to_nat i)) as [x|] eqn:Hx.
  - exists x. split; [reflexivity|]. eapply nth_error_In. exact Hx.
  - apply nth_error_None in Hx. lia.
Qed.

Section InteractiveFacts.
Context {builtins : StrBuiltins} {client : BaseCryptoClient}
        {validation : TrackedCoinValidation}.

Lemma read_choice_range (n : nat) (lines rest : list string) (choice : Z) :
  read_choice n lines = (Returned choice, rest) -> (0 <= choice <= Z.of_nat n)%Z.
Proof.
  induction lines as [|line lines IH]; cbn [read_choice]; [discriminate|].
  destruct (py_int _) as [c|]; [|exact IH].
  destruct (Z.leb_spec 0 c), (Z.leb_spec c (Z.of_nat n)); cbn [andb]; try exact IH.
  intros [= <- _]. lia.
Qed.

Lemma read_choice_outcome (n : nat) (lines : list string) :
  match fst (read_choice n lines) with
  | Returned _ | RaisedEOFError => True
  | _ => False
  end.
Proof.
  induction lines as [|line lines IH]; cbn [read_choice]; [exact I|].
  destruct (py_int _) as [c|]; [|exact IH].
  destruct ((0 <=? c) && (c <=? Z.of_nat n))%Z; [exact I | exact IH].
Qed.

(** X19: when the search succeeds, [add_tracked_coin_interactive] raises
    neither a [KeyError] nor an [IndexError], whatever is typed; a coin it
    returns was built from one of the matches of the search (its id and name,
    its symbol lower-cased) and is the one entry appended to the tracked
    coins; every other run leaves the world as it was. *)
Theorem add_interactive_selects_a_match
    (query : string) (lines : list string) (w : World) (matches : list dict) :
  search_coins query 10 = Ok matches ->
  let '(r, _, w') := add_tracked_coin_interactive query lines w in
  match r with
  | Returned coin =>
      exists m symbol,
        In m matches
        /\ m !! "id" = Some (tc_coin_id coin)
        /\ m !! "symbol" = Some symbol /\ tc_symbol coin = lower symbol
        /\ m !! "name" = Some (tc_name coin)
        /\ tracked_coins w' = tracked_coins w ++ [coin]
        /\ coin_prices w' = coin_prices w
  | Raised (IndexError _) => False
  | RaisedKeyError _ => False
  | _ => w' = w
  end.
Proof.
  intros Hsearch.
  pose proof (search_results_have_fields _ _ _ _ Hsearch) as Hfields.
  unfold add_tracked_coin_interactive, mbind at 1, Cli_bind at 1, call_result.
  unfold pure_cli at 1. rewrite Hsearch.
  destruct matches as [|m0 ms] eqn:Hm; [reflexivity|]. rewrite <- Hm in *.
  assert (Hlen : (0 < length matches)%nat) by (rewrite Hm; simpl; lia).
  unfold mbind at 1, Cli_bind at 1. unfold pure_cli at 1.
  rewrite (print_matches_ok _ Hfields).
  unfold mbind at 1, Cli_bind at 1.
  assert (Hadd : forall (sel : dict) (rest : list string), In sel matches ->
            let '(r, _, w') :=
              (id ← pure_cli (dict_getitem sel "id");
               symbol ← pure_cli (dict_getitem sel "symbol");
               name ← pure_cli (dict_getitem sel "name");
               call (add_tracked_coin id symbol name)) rest w in
            match r with
            | Returned coin =>
                exists m symbol,
                  In m matches
                  /\ m !! "id" = Some (tc_coin_id coin)
                  /\ m !! "symbol" = Some symbol /\ tc_symbol coin = lower symbol
                  /\ m !! "name" = Some (tc_name coin)
                  /\ tracked_coins w' = tracked_coins w ++ [coin]
                  /\ coin_prices w' = coin_prices w
            | Raised (IndexError _) => False
            | RaisedKeyError _ => False
            | _ => w' = w
            end).
  { intros sel rest Hsel.
    destruct (Hfields sel Hsel) as (i & s & n & Ei & Es & En).
    unfold mbind, Cli_bind, pure_cli, dict_getitem, call. rewrite Ei, Es, En.
    unfold add_tracked_coin.
    destruct (List.filter (has_id i) (tracked_coins w)); [|reflexivity].
    destruct (validation_error _); [reflexivity|].
    exists sel, s. cbn [tc_coin_id tc_symbol tc_name tracked_coins coin_prices].
    repeat split; assumption || reflexivity. }
  destruct ((length matches =? 1)%nat && first_is_major matches).
  - destruct (list_getitem_in_range matches 0) as (sel & Hsel & Hin); [lia|].
    unfold pure_cli at 1. rewrite Hsel. apply Hadd. exact Hin.
  - unfold mbind at 1, Cli_bind at 1, reading.
    pose proof (read_choice_outcome (length matches) lines) as Hout.
    destruct (read_choice (length matches) lines) as [[choice|e| |k] rest] eqn:Hc;
      cbn [fst] in Hout; try contradiction; try reflexivity.
    apply read_choice_range in Hc.
    destruct (Z.eqb_spec choice 0) as [|Hnz]; [reflexivity|].
    destruct (list_getitem_in_range matches (choice - 1)) as (sel & Hsel & Hin); [lia|].
    unfold pure_cli at 1. rewrite Hsel. apply Hadd. exact Hin.
Qed.

(** X20: when the query hits the priority table the coin is selected
    without asking: no line of input is read, and unless that coin is
    already tracked or refused by the validation it is the one added. *)
Theorem add_interactive_auto_selects
    (query : string) (lines : list string) (w : World) (entry : dict) :
  MAJOR_COINS !! lower query = Some entry ->
  exists id symbol name,
    entry !! "id" = Some id /\ entry !! "symbol" = Some symbol /\ entry !! "name" = Some name
    /\ add_tracked_coin_interactive query lines w
       = match add_tracked_coin id symbol name w with
         | (Ok coin, w') => (Returned coin, lines, w')
         | (Raise e, w') => (Raised e, lines, w')
         end.
Proof.
  intros Hhit.
  destruct (MAJOR_COINS_fields _ _ Hhit) as (i & s & n & Ei & Es & En).
  exists i, s, n. repeat (split; [assumption|]).
  assert (Hsearch : search_coins query 10 = Ok [entry])
    by (unfold search_coins; cbv zeta; now rewrite Hhit).
  unfold add_tracked_coin_interactive, mbind at 1, Cli_bind at 1, call_result.
  unfold pure_cli at 1. rewrite Hsearch.
  unfold mbind at 1, Cli_bind at 1. unfold pure_cli at 1.
  rewrite print_matches_ok by (intros m [<-|[]]; exists i, s, n; auto).
  assert (Hmajor : first_is_major [entry] = true).
  { unfold first_is_major. change (list_getitem [entry] 0) with (Returned entry).
    apply bool_decide_eq_true.
    apply list_elem_of_fmap. exists (lower query, entry). split; [reflexivity|].
    now apply elem_of_map_to_list. }
  rewrite Hmajor. cbn [length Nat.eqb andb].
  change (list_getitem [entry] 0) with (Returned entry).
  unfold mbind, Cli_bind, pure_cli, dict_getitem, call.
  rewrite Ei, Es, En. reflexivity.
Qed.

End InteractiveFacts.

Lemma add_interactive_selects_a_match_witness :
  let '(r, _, w') :=
    add_tracked_coin_interactive (builtins := digit_builtins) (client := mock_client)
      (validation := accept_all) "ltc" ["5"; "1"] (world_tracking []) in
  match r with
  | Returned coin =>
      exists m symbol,
        In m [coin_entry "litecoin" "ltc" "Litecoin"]
        /\ m !! "id" = Some (tc_coin_id coin)
        /\ m !! "symbol" = Some symbol /\ tc_symbol coin = lower symbol
        /\ m !! "name" = Some (tc_name coin)
        /\ tracked_coins w' = tracked_coins (world_tracking []) ++ [coin]
        /\ coin_prices w' = coin_prices (world_tracking [])
  | Raised (IndexError _) => False
  | RaisedKeyError _ => False
  | _ => w' = world_tracking []
  end.
Proof.
  apply (add_interactive_selects_a_match (builtins := digit_builtins) (client := mock_client)
           (validation := accept_all) "ltc" ["5"; "1"] (world_tracking [])
           [coin_entry "litecoin" "ltc" "Litecoin"]).
  vm_compute. reflexivity.
Defined.

Lemma add_interactive_auto_selects_witness :
  exists w',
    add_tracked_coin_interactive (builtins := digit_builtins) (client := mock_client)
      (validation := accept_all) "BTC" ["0"] (world_tracking [])
    = (Returned (tracked "bitcoin" "btc" "Bitcoin"), ["0"], w').
Proof.
  destruct (add_interactive_auto_selects (builtins := digit_builtins) (client := mock_client)
              (validation := accept_all) "BTC" ["0"] (world_tracking [])
              (coin_entry "bitcoin" "btc" "Bitcoin")) as (i & s & n & Ei & Es & En & Hrun).
  - vm_compute. reflexivity.
  - injection Ei as <-. injection Es as <-. injection En as <-.
    eexists. rewrite Hrun. reflexivity.
Defined.

(** * The database connection *)

Lemma driver_state_snoc (calls : list driver_call) (call : driver_call) (b0 b : bool) :
  driver_state b0 calls = Some b ->
  driver_state b0 (calls ++ [call]) = driver_state b [call].
Proof.
  revert b0. induction calls as [|c calls IH]; intros b0 H.
  - injection H as <-. reflexivity.
  - cbn [app driver_state] in *. destruct c, b0; try discriminate; now apply IH.
Qed.


Section DeleteHandlerFacts.
Context {builtins : StrBuiltins}.

Lemma read_confirm_first (lines rest : list string) (answer : string) :
  read_confirm lines = (Returned answer, rest) ->
  List.find (fun line => is_answer (lower (strip line))) lines
  = Some (hd "" (skipn (length lines - S (length rest)) lines))
  /\ answer = lower (strip (hd "" (skipn (length lines - S (length rest)) lines)))
  /\ is_answer answer = true
  /\ (length rest < length lines)%nat.
Proof.
  induction lines as [|line lines IH]; cbn [read_confirm List.find]; [discriminate|].
  destruct (is_answer (lower (strip line))) eqn:Ha.
  - intros [= <- <-]. cbn [length]. rewrite Nat.sub_diag. cbn [skipn hd]. auto.
  - intros H. destruct (IH H) as (Hf & He & Hans & Hlen). cbn [length].
    replace (S (length lines) - S (length rest))%nat
      with (S (length lines - S (length rest))) by lia.
    cbn [skipn]. repeat split; auto.
Qed.


End DeleteHandlerFacts.

Lemma handle_delete_coin_example :
  handle_delete_coin (builtins := digit_builtins) ["Bitcoin"; "maybe"; "Y"; "no"; "x"]
    (world_tracking [tracked "bitcoin" "btc" "Bitcoin"])
  = (Returned tt, ["x"], world_tracking [])
  /\ handle_delete_coin (builtins := digit_builtins) ["Bitcoin"; "N"; "yes"]
       (world_tracking [tracked "bitcoin" "btc" "Bitcoin"])
     = (Returned tt, ["yes"], world_tracking [tracked "bitcoin" "btc" "Bitcoin"]).
Proof. split; reflexivity. Qed.
